(** * Identity and session core of the notes backend

    A shallow embedding of [backend/src/models/User.model.ts] and
    [backend/src/controllers/auth.controller.ts]: the [User] schema with its
    validators and its [pre("save")] hook, the five request handlers
    ([signup], [verifyOTP], [signin], [googleAuth], [resendOTP]) and the
    helpers [generateOTP] and [generateToken].

    Conventions of the embedding:
    - a request handler is a computation over the state of the outside world
      (the [users] collection, the writes sent to it, the mails handed to the
      transport); a JavaScript exception leaves that state as it is at the
      point of the [throw], which is what [try]/[catch] in the handlers sees;
    - what a handler reads from its environment during one request (the
      clock, [Math.random()], the salt bcrypt draws, whether the transport
      delivers, what Google's verifier answers) is a [World] value;
    - [bcrypt.hash] and [bcrypt.compare] are library code: they are
      parameters of the development;
    - a JavaScript number is the rational it denotes, and arithmetic on
      numbers rounds to the nearest IEEE 754 double, ties to even;
    - store operations themselves do not fail for operational reasons (an
      unavailable database); they fail where the schema says so. *)

From Stdlib Require Import ZArith List String Ascii Bool Lia QArith Qround Qpower Lqa.
Import ListNotations.
Local Open Scope string_scope.
Local Open Scope Z_scope.

Set Implicit Arguments.

(** ** JavaScript values used by the handlers *)

Module Js.

(** [Number.prototype.toString()] on a non-negative integer: its decimal
    digits, most significant first, no padding. *)
Definition digitChar (d : Z) : ascii :=
  ascii_of_nat (48 + Z.to_nat d).

Fixpoint digits (fuel : nat) (n : Z) (acc : string) : string :=
  match fuel with
  | O => acc
  | S fuel' =>
      let acc' := String (digitChar (n mod 10)) acc in
      if n / 10 =? 0 then acc' else digits fuel' (n / 10) acc'
  end.

Definition toString (n : Z) : string :=
  if n <? 0 then "-" ++ digits (S (Z.to_nat (Z.log2 (- n)))) (- n) ""
  else digits (S (Z.to_nat (Z.log2 n))) n "".

(** [Math.floor] of a rational. *)
Definition floor (x : Q) : Z := Qfloor x.

(** IEEE 754 binary64 numbers, as the rationals they denote. [pow2 k] is
    [2^k]; [binade x] is [floor (log2 x)] for a positive [x]; the doubles
    around [x] are the multiples of [pow2 (grid x)] (53 significant bits,
    and the fixed spacing [2^-1074] in the subnormal range). [toDouble]
    rounds to the nearest of them, ties to the even multiple. Numbers
    beyond the largest finite double (about [2^1024]) are not covered. *)
Definition pow2 (k : Z) : Q := ((2 # 1) ^ k)%Q.

Definition binade (x : Q) : Z :=
  let k := Z.log2 (Qnum x) - Z.log2 (Zpos (Qden x)) in
  if Qle_bool (pow2 k) x then k else k - 1.

Definition grid (x : Q) : Z := Z.max (binade x) (-1022) - 52.

Definition roundHalfEven (z : Q) : Z :=
  let f := Qfloor z in
  match Qcompare (z - inject_Z f) (1 # 2) with
  | Lt => f
  | Gt => f + 1
  | Eq => if Z.even f then f else f + 1
  end.

Definition roundPositive (x : Q) : Q :=
  (inject_Z (roundHalfEven (x / pow2 (grid x))) * pow2 (grid x))%Q.

Definition toDouble (x : Q) : Q :=
  match Qcompare x 0 with
  | Eq => 0%Q
  | Gt => roundPositive x
  | Lt => (- roundPositive (- x))%Q
  end.

(** [x * y] and [x + y] on numbers. *)
Definition mul (x y : Q) : Q := toDouble (x * y).

Definition add (x y : Q) : Q := toDouble (x + y).

(** The rationals that are doubles. *)
Definition isDouble (x : Q) : Prop := (toDouble x == x)%Q.

Definition isDigit (c : ascii) : bool :=
  let n := nat_of_ascii c in (48 <=? n)%nat && (n <=? 57)%nat.

Fixpoint allDigits (s : string) : bool :=
  match s with
  | EmptyString => true
  | String c s' => isDigit c && allDigits s'
  end.

(** [String.prototype.toLowerCase] and [String.prototype.trim], on the
    ASCII range (a Rocq string is a sequence of bytes). *)
Definition lowerChar (c : ascii) : ascii :=
  let n := nat_of_ascii c in
  if (65 <=? n)%nat && (n <=? 90)%nat then ascii_of_nat (n + 32) else c.

Fixpoint toLowerCase (s : string) : string :=
  match s with
  | EmptyString => EmptyString
  | String c s' => String (lowerChar c) (toLowerCase s')
  end.

Definition isSpace (c : ascii) : bool :=
  let n := nat_of_ascii c in
  (n =? 32)%nat || ((9 <=? n)%nat && (n <=? 13)%nat).

Fixpoint trimStart (s : string) : string :=
  match s with
  | EmptyString => EmptyString
  | String c s' => if isSpace c then trimStart s' else s
  end.

Fixpoint trimEnd (s : string) : string :=
  match s with
  | EmptyString => EmptyString
  | String c s' =>
      match trimEnd s' with
      | EmptyString => if isSpace c then EmptyString else String c EmptyString
      | t => String c t
      end
  end.

Definition trim (s : string) : string := trimEnd (trimStart s).

(** Truthiness of a possibly-undefined string: [undefined] and [""] are
    falsy. *)
Definition truthy (v : option string) : bool :=
  match v with
  | None => false
  | Some s => negb (String.eqb s "")
  end.

(** A field of [req.body], which is untyped JSON. *)
Inductive value : Type :=
| Undefined
| Null
| Str (s : string)
| Other.

(** [stored !== supplied] negated: strict equality between a document's
    optional string path and a body field. *)
Definition strictEq (stored : option string) (supplied : value) : bool :=
  match stored, supplied with
  | None, Undefined => true
  | Some a, Str b => String.eqb a b
  | _, _ => false
  end.

End Js.

(** ** The [User] model ([models/User.model.ts]) *)

(** A MongoDB [ObjectId]; the driver numbers the ids it creates with a
    process-local counter, which makes them distinct. *)
Definition ObjectId := N.

(** [IUser], as a document really is at run time: every path except [_id]
    and [isVerified] (which has a default) can be [undefined]. Dates are
    milliseconds since the epoch. *)
Record User : Type := mkUser {
  _id : ObjectId;
  email : option string;
  password : option string;
  googleId : option string;
  name : option string;
  dateOfBirth : option Z;
  isVerified : bool;
  otp : option string;
  otpExpiry : option Z
}.

Inductive Path : Type :=
| P_email | P_password | P_googleId | P_name
| P_dateOfBirth | P_isVerified | P_otp | P_otpExpiry.

Definition Path_eqb (p q : Path) : bool :=
  match p, q with
  | P_email, P_email | P_password, P_password | P_googleId, P_googleId
  | P_name, P_name | P_dateOfBirth, P_dateOfBirth
  | P_isVerified, P_isVerified | P_otp, P_otp | P_otpExpiry, P_otpExpiry => true
  | _, _ => false
  end.

(** A hydrated document: the data, whether it was built by [new User] and
    not saved yet, and the paths Mongoose has marked as modified. *)
Record Document : Type := mkDocument {
  data : User;
  isNew : bool;
  modifiedPaths : list Path
}.

Definition isModified (p : Path) (d : Document) : bool :=
  existsb (Path_eqb p) (modifiedPaths d).

Definition opt_eqb {A} (eqb : A -> A -> bool) (a b : option A) : bool :=
  match a, b with
  | None, None => true
  | Some x, Some y => eqb x y
  | _, _ => false
  end.

(** Assignments to a loaded document. A path is marked modified when the
    assigned value differs from the one it holds. *)
Definition markModified (p : Path) (changed : bool) (d : Document) : list Path :=
  if changed then p :: modifiedPaths d else modifiedPaths d.

Definition set_isVerified (v : bool) (d : Document) : Document :=
  let u := data d in
  {| data := mkUser (_id u) (email u) (password u) (googleId u) (name u)
                    (dateOfBirth u) v (otp u) (otpExpiry u);
     isNew := isNew d;
     modifiedPaths := markModified P_isVerified (negb (Bool.eqb v (isVerified u))) d |}.

Definition set_otp (v : option string) (d : Document) : Document :=
  let u := data d in
  {| data := mkUser (_id u) (email u) (password u) (googleId u) (name u)
                    (dateOfBirth u) (isVerified u) v (otpExpiry u);
     isNew := isNew d;
     modifiedPaths := markModified P_otp (negb (opt_eqb String.eqb v (otp u))) d |}.

Definition set_otpExpiry (v : option Z) (d : Document) : Document :=
  let u := data d in
  {| data := mkUser (_id u) (email u) (password u) (googleId u) (name u)
                    (dateOfBirth u) (isVerified u) (otp u) v;
     isNew := isNew d;
     modifiedPaths := markModified P_otpExpiry (negb (opt_eqb Z.eqb v (otpExpiry u))) d |}.

Definition set_password (v : option string) (d : Document) : Document :=
  let u := data d in
  {| data := mkUser (_id u) (email u) v (googleId u) (name u)
                    (dateOfBirth u) (isVerified u) (otp u) (otpExpiry u);
     isNew := isNew d;
     modifiedPaths := markModified P_password (negb (opt_eqb String.eqb v (password u))) d |}.

(** The [lowercase: true, trim: true] setters of the [email] path; Mongoose
    runs them on assigned values and on query filters alike. *)
Definition emailSetter (s : string) : string := Js.toLowerCase (Js.trim s).

(** The filters [{ _id: id }] and [{ email: q }]; the second one goes
    through the setters of the path. *)
Definition byId (id : ObjectId) (u : User) : bool := N.eqb (_id u) id.

Definition byEmail (q : option string) (u : User) : bool :=
  opt_eqb String.eqb (email u) (option_map emailSetter q).

(** The [required] validators. For a string path Mongoose's [required]
    rejects [undefined] and the empty string; [password] is required
    exactly when [!this.googleId]. *)
Definition validate (u : User) : list Path :=
  (if Js.truthy (email u) then [] else [P_email])
  ++ (if negb (Js.truthy (googleId u)) && negb (Js.truthy (password u))
      then [P_password] else [])
  ++ (if Js.truthy (name u) then [] else [P_name]).

(** ** The outside world *)

Inductive Write : Type :=
| Insert (u : User)
| Update (u : User).

Record Mail : Type := mkMail {
  mail_to : string;
  mail_otp : string
}.

Record Sys : Type := mkSys {
  users : list User;        (* the collection, in insertion order *)
  oplog : list Write;       (* the writes sent to it, latest first *)
  outbox : list Mail;       (* the mails the transport accepted, latest first *)
  oidCounter : N            (* the ObjectId counter of the process *)
}.

Definition boot : Sys := mkSys [] [] [] 0.

Record TokenPayload : Type := mkPayload {
  sub : string;
  payload_email : option string;
  payload_name : option string
}.

(** [googleClient.verifyIdToken] either rejects (throws) or resolves to a
    ticket, whose [getPayload()] may be [undefined]. *)
Inductive VerifyResult : Type :=
| Rejects
| Ticket (payload : option TokenPayload).

Record World : Type := mkWorld {
  now : Z;                                       (* Date.now() *)
  random : Q;                                    (* Math.random() *)
  salt : string;                                 (* the salt bcrypt.hash draws *)
  delivers : bool;                               (* transporter.sendMail resolves *)
  verifyIdToken : string -> string -> VerifyResult  (* idToken, audience *)
}.

Record ProcessEnv : Type := mkEnv {
  JWT_SECRET : string;
  JWT_EXPIRE : string;
  GOOGLE_CLIENT_ID : string
}.

(** What [jwt.sign] signs: the payload [{ userId }], the key, the lifetime
    and the time of issue. *)
Record Jwt : Type := mkJwt {
  jwt_userId : ObjectId;
  jwt_key : string;
  jwt_expiresIn : string;
  jwt_iat : Z
}.

(** ** Handler computations: state and exceptions *)

Inductive Exn : Type :=
| ValidationError (paths : list Path)
| DuplicateKey
| DocumentNotFound
| MailError
| VerifyError.

Inductive outcome (A : Type) : Type :=
| Returned (a : A)
| Thrown (e : Exn).

Arguments Returned {A} a.
Arguments Thrown {A} e.

Definition M (A : Type) : Type := Sys -> Sys * outcome A.

Definition ret {A} (a : A) : M A := fun s => (s, Returned a).

Definition throw {A} (e : Exn) : M A := fun s => (s, Thrown e).

Definition bind {A B} (c : M A) (k : A -> M B) : M B :=
  fun s =>
    match c s with
    | (s', Returned a) => k a s'
    | (s', Thrown e) => (s', Thrown e)
    end.

(** [try { c } catch (error) { h error }]: the effects [c] had before it
    threw stay. *)
Definition tryCatch {A} (c : M A) (h : Exn -> M A) : M A :=
  fun s =>
    match c s with
    | (s', Returned a) => (s', Returned a)
    | (s', Thrown e) => h e s'
    end.

Declare Scope handler_scope.
Delimit Scope handler_scope with handler.
Notation "x <- c ;; k" := (bind c (fun x => k))
  (at level 61, c at next level, right associativity) : handler_scope.
Notation "c ;;; k" := (bind c (fun _ => k))
  (at level 61, right associativity) : handler_scope.
Local Open Scope handler_scope.

(** ** Requests and responses *)

Record SignupBody : Type := mkSignupBody {
  validationErrors : list string;    (* validationResult(req).array() *)
  signup_email : string;
  signup_name : option string;
  signup_dateOfBirth : option Z;
  signup_password : option string
}.

Record VerifyBody : Type := mkVerifyBody {
  verify_userId : ObjectId;
  verify_otp : Js.value
}.

Inductive Json : Type :=
| JErrors (errors : list string)                       (* { errors } *)
| JError (error : string)                              (* { error } *)
| JOtpSent (message : string) (userId : ObjectId)      (* { message, userId } *)
| JMessage (message : string)                          (* { message } *)
| JSession (token : Jwt) (id : ObjectId)
           (user_email user_name : option string).     (* { token, user } *)

Record Response : Type := mkResponse {
  status : Z;
  json : Json
}.

Inductive Request : Type :=
| PostSignup (body : SignupBody)
| PostVerifyOtp (body : VerifyBody)
| PostSignin (body_email : string)
| PostGoogle (body_token : string)
| PostResendOtp (body_userId : ObjectId).

(** ** [auth.controller.ts]: the OTP generator *)

(** [Math.floor(100000 + Math.random() * 900000)], where [r] is the value
    of [Math.random()]: the product and the sum are rounded to doubles as
    JavaScript does. *)
Definition otpNumber (r : Q) : Z :=
  Js.floor (Js.add (inject_Z 100000) (Js.mul r (inject_Z 900000))).

Definition generateOTP (r : Q) : string := Js.toString (otpNumber r).

(** [Date.now() + 10 * 60 * 1000] *)
Definition otpDeadline (w : World) : Z := now w + 10 * 60 * 1000.

Section Backend.

(** [bcrypt.hash(plaintext, rounds)] with the salt it drew, and
    [bcrypt.compare(plaintext, hash)]. *)
Variable bcrypt_hash : string -> nat -> string -> string.
Variable bcrypt_compare : string -> string -> bool.
Variable env : ProcessEnv.

(** *** Model statics and methods *)

(** [new User({ ... })]: a fresh [_id]; the keys given a value are set
    (and so marked modified), [isVerified] defaults to [false]. *)
Definition new_User (f_email f_password f_googleId f_name : option string)
    (f_dateOfBirth : option Z) (f_isVerified : option bool)
    (f_otp : option string) (f_otpExpiry : option Z) : M Document :=
  fun s =>
    let id := oidCounter s in
    let given {A} (p : Path) (v : option A) : list Path :=
      match v with Some _ => [p] | None => [] end in
    (mkSys (users s) (oplog s) (outbox s) (N.succ id),
     Returned
       {| data := mkUser id (option_map emailSetter f_email) f_password
                    f_googleId f_name f_dateOfBirth
                    (match f_isVerified with Some b => b | None => false end)
                    f_otp f_otpExpiry;
          isNew := true;
          modifiedPaths :=
            given P_email f_email ++ given P_password f_password
            ++ given P_googleId f_googleId ++ given P_name f_name
            ++ given P_dateOfBirth f_dateOfBirth
            ++ given P_isVerified f_isVerified
            ++ given P_otp f_otp ++ given P_otpExpiry f_otpExpiry |}).

Definition hydrate (u : User) : Document :=
  {| data := u; isNew := false; modifiedPaths := [] |}.

(** [User.findOne({ email })]: the first document whose [email] is the
    filter's value after the path's setters. *)
Definition findOne_email (q : option string) : M (option Document) :=
  fun s =>
    (s, Returned
          (option_map hydrate (find (byEmail q) (users s)))).

(** [User.findById(id)] *)
Definition findById (id : ObjectId) : M (option Document) :=
  fun s =>
    (s, Returned (option_map hydrate (find (byId id) (users s)))).

(** [UserSchema.pre("save", ...)] *)
Definition preSave (w : World) (d : Document) : Document :=
  if negb (isModified P_password d) || negb (Js.truthy (password (data d)))
  then d
  else
    match password (data d) with
    | Some plaintext => set_password (Some (bcrypt_hash plaintext 10 (salt w))) d
    | None => d
    end.

(** The unique indexes: [_id], and [email] ([unique: true]). *)
Definition violatesUnique (u : User) (us : list User) : bool :=
  existsb (fun v => N.eqb (_id v) (_id u) || opt_eqb String.eqb (email v) (email u)) us.

Definition insertOne (u : User) : M unit :=
  fun s =>
    if violatesUnique u (users s) then (s, Thrown DuplicateKey)
    else (mkSys (users s ++ [u]) (Insert u :: oplog s) (outbox s) (oidCounter s),
          Returned tt).

Fixpoint replaceById (u : User) (us : list User) : option (list User) :=
  match us with
  | [] => None
  | v :: rest =>
      if N.eqb (_id v) (_id u) then Some (u :: rest)
      else option_map (cons v) (replaceById u rest)
  end.

Definition updateOne (u : User) : M unit :=
  fun s =>
    match replaceById u (users s) with
    | None => (s, Thrown DocumentNotFound)
    | Some us => (mkSys us (Update u :: oplog s) (outbox s) (oidCounter s), Returned tt)
    end.

(** [doc.save()]: validation, then the [pre("save")] hook, then one write:
    an insert for a new document, an update of the modified paths
    otherwise (none when nothing is modified). *)
Definition save (w : World) (d : Document) : M Document :=
  match validate (data d) with
  | (_ :: _) as failed => throw (ValidationError failed)
  | [] =>
      let d' := preSave w d in
      if isNew d' then
        insertOne (data d') ;;; ret (hydrate (data d'))
      else
        match modifiedPaths d' with
        | [] => ret d'
        | _ :: _ => updateOne (data d') ;;; ret (hydrate (data d'))
        end
  end.

(** [UserSchema.methods.comparePassword] *)
Definition comparePassword (u : User) (plaintext : string) : bool :=
  if negb (Js.truthy (password u)) then false
  else
    match password u with
    | Some h => bcrypt_compare plaintext h
    | None => false
    end.

(** *** [services/email.service.ts] *)

Definition sendOTP (w : World) (to : string) (code : string) : M unit :=
  fun s =>
    if delivers w
    then (mkSys (users s) (oplog s) (mkMail to code :: outbox s) (oidCounter s),
          Returned tt)
    else (s, Thrown MailError).

(** *** [auth.controller.ts] *)

Definition generateToken (w : World) (userId : ObjectId) : Jwt :=
  {| jwt_userId := userId;
     jwt_key := JWT_SECRET env;
     jwt_expiresIn := JWT_EXPIRE env;
     jwt_iat := now w / 1000 |}.

Definition respond (code : Z) (j : Json) : M Response :=
  ret (mkResponse code j).

Definition signup (w : World) (body : SignupBody) : M Response :=
  tryCatch
    (match validationErrors body with
     | (_ :: _) as errors => respond 400 (JErrors errors)
     | [] =>
         existingUser <- findOne_email (Some (signup_email body)) ;;
         match existingUser with
         | Some _ => respond 400 (JError "User already exists")
         | None =>
             let otp := generateOTP (random w) in
             let otpExpiry := otpDeadline w in
             user <- new_User (Some (signup_email body)) (signup_password body)
                              None (signup_name body) (signup_dateOfBirth body)
                              None (Some otp) (Some otpExpiry) ;;
             saved <- save w user ;;
             sendOTP w (signup_email body) otp ;;;
             respond 201 (JOtpSent "OTP sent to your email" (_id (data saved)))
         end
     end)
    (fun _ => respond 500 (JError "Failed to create account")).

Definition verifyOTP (w : World) (body : VerifyBody) : M Response :=
  tryCatch
    (found <- findById (verify_userId body) ;;
     match found with
     | None => respond 404 (JError "User not found")
     | Some user =>
         if negb (Js.strictEq (otp (data user)) (verify_otp body))
            || match otpExpiry (data user) with
               | None => true
               | Some expiry => expiry <? now w
               end
         then respond 400 (JError "Invalid or expired OTP")
         else
           let user := set_isVerified true user in
           let user := set_otp None user in
           let user := set_otpExpiry None user in
           saved <- save w user ;;
           let token := generateToken w (_id (data saved)) in
           respond 200 (JSession token (_id (data saved))
                                 (email (data saved)) (name (data saved)))
     end)
    (fun _ => respond 500 (JError "Failed to verify OTP")).

Definition signin (w : World) (body_email : string) : M Response :=
  tryCatch
    (found <- findOne_email (Some body_email) ;;
     match found with
     | None => respond 404 (JError "User not found")
     | Some user =>
         let otp := generateOTP (random w) in
         let otpExpiry := otpDeadline w in
         let user := set_otp (Some otp) user in
         let user := set_otpExpiry (Some otpExpiry) user in
         saved <- save w user ;;
         sendOTP w body_email otp ;;;
         respond 200 (JOtpSent "OTP sent to your email" (_id (data saved)))
     end)
    (fun _ => respond 500 (JError "Failed to send OTP")).

Definition googleAuth (w : World) (body_token : string) : M Response :=
  tryCatch
    (match verifyIdToken w body_token (GOOGLE_CLIENT_ID env) with
     | Rejects => throw VerifyError
     | Ticket None => respond 400 (JError "Invalid token")
     | Ticket (Some payload) =>
         found <- findOne_email (payload_email payload) ;;
         user <- match found with
                 | Some user => ret user
                 | None =>
                     fresh <- new_User (payload_email payload) None
                                       (Some (sub payload)) (payload_name payload)
                                       None (Some true) None None ;;
                     save w fresh
                 end ;;
         let jwtToken := generateToken w (_id (data user)) in
         respond 200 (JSession jwtToken (_id (data user))
                               (email (data user)) (name (data user)))
     end)
    (fun _ => respond 500 (JError "Google authentication failed")).

Definition resendOTP (w : World) (body_userId : ObjectId) : M Response :=
  tryCatch
    (found <- findById body_userId ;;
     match found with
     | None => respond 404 (JError "User not found")
     | Some user =>
         let otp := generateOTP (random w) in
         let otpExpiry := otpDeadline w in
         let user := set_otp (Some otp) user in
         let user := set_otpExpiry (Some otpExpiry) user in
         saved <- save w user ;;
         match email (data saved) with
         | Some to => sendOTP w to otp
         | None => throw MailError
         end ;;;
         respond 200 (JMessage "OTP resent successfully")
     end)
    (fun _ => respond 500 (JError "Failed to resend OTP")).

(** The router ([routes/auth.routes.ts]). *)
Definition handle (w : World) (rq : Request) : M Response :=
  match rq with
  | PostSignup body => signup w body
  | PostVerifyOtp body => verifyOTP w body
  | PostSignin body_email => signin w body_email
  | PostGoogle body_token => googleAuth w body_token
  | PostResendOtp body_userId => resendOTP w body_userId
  end.

(** The states the system can be in: what a sequence of requests, each in
    its own world, makes of the freshly booted one. *)
Inductive reachable : Sys -> Prop :=
| reachable_boot : reachable boot
| reachable_step (s : Sys) (w : World) (rq : Request) :
    reachable s -> reachable (fst (handle w rq s)).

End Backend.

(** ** Descriptions of what the handlers do, used to state their properties *)

Section Descriptions.

Variable bcrypt_hash : string -> nat -> string -> string.
Variable env : ProcessEnv.

(** The decimal expansion of a number with six digits. *)
Definition sixDigits (n : Z) : string :=
  String (Js.digitChar (n / 100000))
    (String (Js.digitChar ((n / 10000) mod 10))
       (String (Js.digitChar ((n / 1000) mod 10))
          (String (Js.digitChar ((n / 100) mod 10))
             (String (Js.digitChar ((n / 10) mod 10))
                (String (Js.digitChar (n mod 10)) ""))))).

(** The document a successful [verifyOTP] stores for [u]. *)
Definition consume (u : User) : User :=
  mkUser (_id u) (email u) (password u) (googleId u) (name u) (dateOfBirth u)
         true None None.

(** The document [signin] and [resendOTP] store for [u] in world [w]. *)
Definition issue (w : World) (u : User) : User :=
  mkUser (_id u) (email u) (password u) (googleId u) (name u) (dateOfBirth u)
         (isVerified u) (Some (generateOTP (random w))) (Some (otpDeadline w)).

(** The document [googleAuth] inserts for a payload. *)
Definition googleUser (id : ObjectId) (p : TokenPayload) : User :=
  mkUser id (option_map emailSetter (payload_email p)) None (Some (sub p))
         (payload_name p) None true None None.

(** The document [signup] inserts for a body with password [pw]. *)
Definition signupUser (id : ObjectId) (w : World) (body : SignupBody)
    (pw : string) : User :=
  mkUser id (Some (emailSetter (signup_email body)))
         (Some (bcrypt_hash pw 10 (salt w))) None (signup_name body)
         (signup_dateOfBirth body) false
         (Some (generateOTP (random w))) (Some (otpDeadline w)).

(** The in-memory documents of the three updating handlers. *)
Definition consumeDoc (u : User) : Document :=
  set_otpExpiry None (set_otp None (set_isVerified true (hydrate u))).

Definition issueDoc (w : World) (u : User) : Document :=
  set_otpExpiry (Some (otpDeadline w))
    (set_otp (Some (generateOTP (random w))) (hydrate u)).

(** The guard of [verifyOTP], negated: the code matches and the deadline
    is not behind the clock. *)
Definition otpAccepted (w : World) (u : User) (supplied : Js.value) : bool :=
  Js.strictEq (otp u) supplied
  && match otpExpiry u with
     | None => false
     | Some expiry => now w <=? expiry
     end.

Definition session (w : World) (u : User) : Response :=
  mkResponse 200 (JSession (generateToken env w (_id u)) (_id u) (email u) (name u)).

Definition failure (code : Z) (msg : string) : outcome Response :=
  Returned (mkResponse code (JError msg)).

(** The state after [save] of a re-issued document, when it does not
    throw: one update, or nothing at all when the document already holds
    this very code and deadline. *)
Definition issueWrite (w : World) (u : User) (s : Sys) : option Sys :=
  match validate u with
  | _ :: _ => None
  | [] =>
      match modifiedPaths (issueDoc w u) with
      | [] => Some s
      | _ :: _ =>
          match replaceById (issue w u) (users s) with
          | Some us =>
              Some (mkSys us (Update (issue w u) :: oplog s) (outbox s) (oidCounter s))
          | None => None
          end
      end
  end.

Definition deliver (w : World) (to code : string) (s : Sys) : Sys :=
  mkSys (users s) (oplog s) (mkMail to code :: outbox s) (oidCounter s).

(** The state once [new User] has drawn an [ObjectId]. *)
Definition bump (s : Sys) : Sys :=
  mkSys (users s) (oplog s) (outbox s) (N.succ (oidCounter s)).

(** The document [signup] builds, before [save]: the password is still
    the one of the request. *)
Definition signupDraft (id : ObjectId) (w : World) (body : SignupBody) : User :=
  mkUser id (Some (emailSetter (signup_email body))) (signup_password body)
         None (signup_name body) (signup_dateOfBirth body) false
         (Some (generateOTP (random w))) (Some (otpDeadline w)).

(** What one request does to the collection: it leaves it alone or sends
    it exactly one write, and which write depends on the handler only. *)
Inductive change (w : World) : Request -> Sys -> Sys -> Prop :=
| change_none rq s s' :
    users s' = users s -> oplog s' = oplog s ->
    (oidCounter s <= oidCounter s')%N ->
    change w rq s s'
| change_signup body pw s s' :
    signup_password body = Some pw -> pw <> "" ->
    validate (signupDraft (oidCounter s) w body) = [] ->
    violatesUnique (signupUser (oidCounter s) w body pw) (users s) = false ->
    users s' = (users s ++ [signupUser (oidCounter s) w body pw])%list ->
    oplog s' = Insert (signupUser (oidCounter s) w body pw) :: oplog s ->
    oidCounter s' = N.succ (oidCounter s) ->
    change w (PostSignup body) s s'
| change_google tok payload s s' :
    validate (googleUser (oidCounter s) payload) = [] ->
    violatesUnique (googleUser (oidCounter s) payload) (users s) = false ->
    users s' = (users s ++ [googleUser (oidCounter s) payload])%list ->
    oplog s' = Insert (googleUser (oidCounter s) payload) :: oplog s ->
    oidCounter s' = N.succ (oidCounter s) ->
    change w (PostGoogle tok) s s'
| change_verify body u s s' :
    find (byId (verify_userId body)) (users s) = Some u ->
    otpAccepted w u (verify_otp body) = true ->
    validate u = [] ->
    replaceById (consume u) (users s) = Some (users s') ->
    oplog s' = Update (consume u) :: oplog s ->
    oidCounter s' = oidCounter s ->
    change w (PostVerifyOtp body) s s'
| change_signin body_email u s s' :
    find (byEmail (Some body_email)) (users s) = Some u ->
    validate u = [] ->
    replaceById (issue w u) (users s) = Some (users s') ->
    oplog s' = Update (issue w u) :: oplog s ->
    oidCounter s' = oidCounter s ->
    change w (PostSignin body_email) s s'
| change_resend body_userId u s s' :
    find (byId body_userId) (users s) = Some u ->
    validate u = [] ->
    replaceById (issue w u) (users s) = Some (users s') ->
    oplog s' = Update (issue w u) :: oplog s ->
    oidCounter s' = oidCounter s ->
    change w (PostResendOtp body_userId) s s'.

(** The ids in the collection are below the [ObjectId] counter and
    pairwise distinct. *)
Definition idsKept (s : Sys) : Prop :=
  Forall (fun u => (_id u < oidCounter s)%N) (users s)
  /\ NoDup (map _id (users s)).

(** Both OTP paths are defined, or neither is. *)
Definition paired (u : User) : Prop :=
  (otp u = None /\ otpExpiry u = None)
  \/ (exists code deadline, otp u = Some code /\ otpExpiry u = Some deadline).


(** The handlers that issue a code. *)
Definition issuesOtp (rq : Request) : bool :=
  match rq with
  | PostSignup _ | PostSignin _ | PostResendOtp _ => true
  | PostVerifyOtp _ | PostGoogle _ => false
  end.

(** What the single write of a request stores in the OTP paths. *)
Definition writtenOtp (w : World) (rq : Request) (u : User) : Prop :=
  match rq with
  | PostSignup _ | PostSignin _ | PostResendOtp _ =>
      otp u = Some (generateOTP (random w)) /\ otpExpiry u = Some (otpDeadline w)
  | PostVerifyOtp _ =>
      otp u = None /\ otpExpiry u = None /\ isVerified u = true
  | PostGoogle _ =>
      otp u = None /\ otpExpiry u = None
  end.

(** The collection after [signin] or [resendOTP] has stored a new code for
    [u]: one update that puts exactly [issue w u] in its place, or no write
    at all when the document already is [issue w u] (Mongoose sends
    nothing for an unmodified document). *)
Definition reissued (w : World) (u : User) (s s' : Sys) : Prop :=
  (replaceById (issue w u) (users s) = Some (users s')
   /\ oplog s' = Update (issue w u) :: oplog s)
  \/ (users s' = users s /\ oplog s' = oplog s /\ issue w u = u).

(** What each handler does to the OTP paths when it does anything:
    [signup] inserts one user holding the code and its deadline;
    [verifyOTP] replaces the user it found, in one update, by the same user
    with no code, no deadline and [isVerified = true]; [signin] and
    [resendOTP] store the new code and deadline on the user they found;
    [googleAuth] leaves every stored user alone and at most inserts one
    user who has neither path. *)
Definition otpEffect (w : World) (rq : Request) (s s' : Sys) : Prop :=
  match rq with
  | PostSignup _ =>
      exists u,
        users s' = (users s ++ [u])%list /\ oplog s' = Insert u :: oplog s
        /\ otp u = Some (generateOTP (random w))
        /\ otpExpiry u = Some (otpDeadline w)
  | PostVerifyOtp body =>
      exists u,
        find (byId (verify_userId body)) (users s) = Some u
        /\ replaceById (consume u) (users s) = Some (users s')
        /\ oplog s' = Update (consume u) :: oplog s
        /\ otp (consume u) = None /\ otpExpiry (consume u) = None
        /\ isVerified (consume u) = true
  | PostSignin body_email =>
      exists u,
        find (byEmail (Some body_email)) (users s) = Some u /\ reissued w u s s'
  | PostResendOtp body_userId =>
      exists u,
        find (byId body_userId) (users s) = Some u /\ reissued w u s s'
  | PostGoogle _ =>
      (users s' = users s /\ oplog s' = oplog s)
      \/ exists u,
           users s' = (users s ++ [u])%list /\ oplog s' = Insert u :: oplog s
           /\ otp u = None /\ otpExpiry u = None
  end.

End Descriptions.

(** ** A sample deployment, for running the handlers on concrete requests *)

Module Sample.

(** A stand-in for bcrypt that keeps the shape of its output: a prefix
    naming version and cost, then the salt, then a digest (here the
    plaintext itself). *)
Definition hash (plaintext : string) (rounds : nat) (salt : string) : string :=
  "$2b$10$" ++ salt ++ plaintext.

Definition compare (plaintext h : string) : bool :=
  String.eqb h (hash plaintext 10 "NaCl").

Definition env : ProcessEnv := mkEnv "signing-key" "7d" "google-client-id".

(** Google's verifier knows three tokens; the profile of the first one
    has no [name]. *)
Definition verifier (idToken audience : string) : VerifyResult :=
  if String.eqb idToken "token-of-bob" && String.eqb audience "google-client-id"
  then Ticket (Some (mkPayload "108" (Some "bob@x.com") None))
  else if String.eqb idToken "token-of-ann" && String.eqb audience "google-client-id"
  then Ticket (Some (mkPayload "109" (Some "Ann@X.com") (Some "Ann G.")))
  else if String.eqb idToken "token-of-eve" && String.eqb audience "google-client-id"
  then Ticket (Some (mkPayload "110" (Some "eve@x.com") (Some "Eve")))
  else Rejects.

Definition world (clock : Z) (rnd : Q) (mail : bool) : World :=
  mkWorld clock rnd "NaCl" mail verifier.

Definition annBody : SignupBody :=
  mkSignupBody [] "Ann@X.com" (Some "Ann") None (Some "secret1").

(** Ann has signed up at time 1000 and holds the code ["550000"], good
    until 601000. *)
Definition afterSignup : Sys :=
  fst (handle hash env (world 1000 (1 # 2) true) (PostSignup annBody) boot).

Definition ann : User :=
  mkUser 0%N (Some "ann@x.com") (Some "$2b$10$NaClsecret1") None (Some "Ann") None
         false (Some "550000") (Some 601000).

(** Then she asked for the code again at time 2000, and [Math.random()]
    answered as before. *)
Definition afterResend : Sys :=
  fst (handle hash env (world 2000 (1 # 2) true) (PostResendOtp 0%N) afterSignup).

End Sample.

(** * Properties *)

Example toString_0 : Js.toString 0 = "0".
Proof. reflexivity. Qed.

Example toString_123456 : Js.toString 123456 = "123456".
Proof. reflexivity. Qed.

Example toString_1000000 : Js.toString 1000000 = "1000000".
Proof. reflexivity. Qed.

Example trim_lower : Js.toLowerCase (Js.trim "  Ann@X.com ") = "ann@x.com".
Proof. reflexivity. Qed.

(** ** The OTP generator *)

Lemma digits_last (fuel : nat) (n : Z) (acc : string) :
  0 <= n < 10 ->
  Js.digits (S fuel) n acc = String (Js.digitChar n) acc.
Proof.
  intros Hn. simpl.
  rewrite (Z.div_small n 10), (Z.mod_small n 10) by lia.
  reflexivity.
Qed.

Lemma digits_more (fuel : nat) (n : Z) (acc : string) :
  10 <= n ->
  Js.digits (S fuel) n acc
  = Js.digits fuel (n / 10) (String (Js.digitChar (n mod 10)) acc).
Proof.
  intros Hn. simpl.
  assert (Hq : 1 <= n / 10) by (apply Z.div_le_lower_bound; lia).
  destruct (Z.eqb_spec (n / 10) 0) as [E | _]; [lia | reflexivity].
Qed.

Lemma isDigit_digitChar (d : Z) :
  0 <= d < 10 -> Js.isDigit (Js.digitChar d) = true.
Proof.
  intros Hd.
  assert (C : d = 0 \/ d = 1 \/ d = 2 \/ d = 3 \/ d = 4 \/ d = 5 \/ d = 6
              \/ d = 7 \/ d = 8 \/ d = 9) by lia.
  repeat (destruct C as [-> | C]; [reflexivity | ]); subst d; reflexivity.
Qed.

Lemma toString_sixDigits (n : Z) :
  100000 <= n <= 999999 -> Js.toString n = sixDigits n.
Proof.
  intros Hn. unfold Js.toString.
  destruct (Z.ltb_spec n 0) as [Hneg | _]; [lia | ].
  assert (Hlog : 16 <= Z.log2 n).
  { change 16 with (Z.log2 65536). apply Z.log2_le_mono. lia. }
  destruct (Z.to_nat (Z.log2 n)) as [ | [ | [ | [ | [ | k]]]]] eqn:Ek; try lia.
  assert (H1 : n / 10 / 10 = n / 100) by (rewrite Z.div_div by lia; reflexivity).
  assert (H2 : n / 100 / 10 = n / 1000) by (rewrite Z.div_div by lia; reflexivity).
  assert (H3 : n / 1000 / 10 = n / 10000) by (rewrite Z.div_div by lia; reflexivity).
  assert (H4 : n / 10000 / 10 = n / 100000) by (rewrite Z.div_div by lia; reflexivity).
  assert (B1 : 10000 <= n / 10 <= 99999) by
    (split; [apply Z.div_le_lower_bound | apply Z.lt_succ_r, Z.div_lt_upper_bound]; lia).
  assert (B2 : 1000 <= n / 100 <= 9999) by
    (split; [apply Z.div_le_lower_bound | apply Z.lt_succ_r, Z.div_lt_upper_bound]; lia).
  assert (B3 : 100 <= n / 1000 <= 999) by
    (split; [apply Z.div_le_lower_bound | apply Z.lt_succ_r, Z.div_lt_upper_bound]; lia).
  assert (B4 : 10 <= n / 10000 <= 99) by
    (split; [apply Z.div_le_lower_bound | apply Z.lt_succ_r, Z.div_lt_upper_bound]; lia).
  assert (B5 : 1 <= n / 100000 <= 9) by
    (split; [apply Z.div_le_lower_bound | apply Z.lt_succ_r, Z.div_lt_upper_bound]; lia).
  rewrite digits_more by lia.
  rewrite digits_more by lia. rewrite H1.
  rewrite digits_more by lia. rewrite H2.
  rewrite digits_more by lia. rewrite H3.
  rewrite digits_more by lia. rewrite H4.
  rewrite digits_last by lia.
  reflexivity.
Qed.

Lemma sixDigits_shape (n : Z) :
  100000 <= n <= 999999 ->
  String.length (sixDigits n) = 6%nat
  /\ Js.allDigits (sixDigits n) = true
  /\ String.get 0 (sixDigits n) <> Some "0"%char.
Proof.
  intros Hn.
  assert (B5 : 1 <= n / 100000 <= 9) by
    (split; [apply Z.div_le_lower_bound | apply Z.lt_succ_r, Z.div_lt_upper_bound]; lia).
  split; [reflexivity | split].
  - unfold sixDigits. cbn [Js.allDigits].
    rewrite !isDigit_digitChar; try reflexivity;
      try (apply Z.mod_pos_bound; lia); lia.
  - unfold sixDigits. cbn [String.get].
    assert (C : n / 100000 = 1 \/ n / 100000 = 2 \/ n / 100000 = 3
                \/ n / 100000 = 4 \/ n / 100000 = 5 \/ n / 100000 = 6
                \/ n / 100000 = 7 \/ n / 100000 = 8 \/ n / 100000 = 9) by lia.
    repeat (destruct C as [-> | C]; [discriminate | ]); rewrite C; discriminate.
Qed.

(** [Math.floor x] is [n] exactly when [n <= x < n + 1]. *)
Lemma floor_eq_iff (x : Q) (n : Z) :
  Js.floor x = n <-> (inject_Z n <= x /\ x < inject_Z (n + 1))%Q.
Proof.
  unfold Js.floor. split.
  - intros <-. split; [apply Qfloor_le | apply Qlt_floor].
  - intros [Hlo Hhi].
    assert (L1 : n <= Qfloor x).
    { rewrite <- (Qfloor_Z n). apply Qfloor_resp_le; exact Hlo. }
    assert (L2 : Qfloor x < n + 1).
    { rewrite Zlt_Qlt. eapply Qle_lt_trans; [apply Qfloor_le | exact Hhi]. }
    lia.
Qed.

(** *** Doubles *)

Unset Implicit Arguments.

Lemma pow2_pos (k : Z) : (0 < Js.pow2 k)%Q.
Proof. apply Qpower_0_lt. reflexivity. Qed.

Lemma pow2_plus (a b : Z) : (Js.pow2 (a + b) == Js.pow2 a * Js.pow2 b)%Q.
Proof. apply Qpower_plus. discriminate. Qed.

Lemma pow2_mono (a b : Z) : a <= b -> (Js.pow2 a <= Js.pow2 b)%Q.
Proof. intros H. apply Qpower_le_compat_l; [exact H | discriminate]. Qed.

Lemma pow2_Z (k : Z) : 0 <= k -> (Js.pow2 k == inject_Z (2 ^ k))%Q.
Proof. intros H. unfold Js.pow2. rewrite (Zpower_Qpower 2 k H). reflexivity. Qed.

Lemma binade_spec (x : Q) :
  (0 < x)%Q -> (Js.pow2 (Js.binade x) <= x)%Q /\ (x < Js.pow2 (Js.binade x + 1))%Q.
Proof.
  intros Hx. destruct x as [n d].
  assert (Hn : 0 < n).
  { unfold Qlt in Hx. simpl in Hx. lia. }
  unfold Js.binade. cbn [Qnum Qden].
  set (a := Z.log2 n). set (b := Z.log2 (Z.pos d)).
  destruct (Z.log2_spec n Hn) as [Ha1 Ha2]. fold a in Ha1, Ha2.
  destruct (Z.log2_spec (Z.pos d) eq_refl) as [Hb1 Hb2]. fold b in Hb1, Hb2.
  assert (Ha0 : 0 <= a) by apply Z.log2_nonneg.
  assert (Hb0 : 0 <= b) by apply Z.log2_nonneg.
  assert (Hd : (0 < inject_Z (Z.pos d))%Q) by reflexivity.
  assert (Hxd : (n # d) * inject_Z (Z.pos d) == inject_Z n).
  { unfold Qeq, Qmult, inject_Z. simpl. lia. }
  (* the two outer bounds *)
  assert (Hup : ((n # d) < Js.pow2 (a - b + 1))%Q).
  { apply (Qmult_lt_r _ _ (inject_Z (Z.pos d)) Hd). rewrite Hxd.
    apply Qlt_le_trans with (Js.pow2 (a + 1)).
    - rewrite pow2_Z by lia. rewrite <- Zlt_Qlt. replace (a + 1) with (Z.succ a) by lia.
      exact Ha2.
    - replace (a + 1) with ((a - b + 1) + b) by lia. rewrite pow2_plus.
      apply Qmult_le_l; [apply pow2_pos | ].
      rewrite pow2_Z by lia. rewrite <- Zle_Qle. exact Hb1. }
  assert (Hlo : (Js.pow2 (a - b - 1) <= (n # d))%Q).
  { apply (Qmult_le_r _ _ (inject_Z (Z.pos d)) Hd). rewrite Hxd.
    apply Qle_trans with (Js.pow2 a).
    - replace a with ((a - b - 1) + (b + 1)) at 2 by lia. rewrite pow2_plus.
      apply Qmult_le_l; [apply pow2_pos | ].
      rewrite pow2_Z by lia. rewrite <- Zle_Qle. replace (b + 1) with (Z.succ b) by lia.
      lia.
    - rewrite pow2_Z by lia. rewrite <- Zle_Qle. exact Ha1. }
  fold (Js.pow2 (a - b)).
  destruct (Qle_bool (Js.pow2 (a - b)) (n # d)) eqn:E.
  - apply Qle_bool_iff in E. split; assumption.
  - split; [exact Hlo | ].
    replace (a - b - 1 + 1) with (a - b) by lia.
    apply Qnot_le_lt. intros H. apply Qle_bool_iff in H. congruence.
Qed.

Lemma binade_lt (x : Q) (m : Z) :
  (0 < x)%Q -> (x < Js.pow2 m)%Q -> Js.binade x < m.
Proof.
  intros Hx Hm. destruct (binade_spec x Hx) as [Hlo _].
  destruct (Z_lt_le_dec (Js.binade x) m) as [H | H]; [exact H | ].
  exfalso. apply (Qlt_irrefl x).
  apply Qlt_le_trans with (Js.pow2 m); [exact Hm | ].
  apply Qle_trans with (Js.pow2 (Js.binade x)); [now apply pow2_mono | exact Hlo].
Qed.

Lemma binade_ge (x : Q) (m : Z) :
  (0 < x)%Q -> (Js.pow2 m <= x)%Q -> m <= Js.binade x.
Proof.
  intros Hx Hm. destruct (binade_spec x Hx) as [_ Hhi].
  destruct (Z_lt_le_dec (Js.binade x) m) as [H | H]; [ | exact H].
  exfalso. apply (Qlt_irrefl x).
  apply Qlt_le_trans with (Js.pow2 (Js.binade x + 1)); [exact Hhi | ].
  apply Qle_trans with (Js.pow2 m); [apply pow2_mono; lia | exact Hm].
Qed.

(** Rounding to the nearest integer keeps the integer bounds of its
    argument. *)
Lemma round_ge (z : Q) (k : Z) : (inject_Z k <= z)%Q -> k <= Js.roundHalfEven z.
Proof.
  intros H. assert (Hf : k <= Qfloor z).
  { rewrite <- (Qfloor_Z k). now apply Qfloor_resp_le. }
  unfold Js.roundHalfEven.
  destruct (Qcompare (z - inject_Z (Qfloor z)) (1 # 2)); [ | lia | lia].
  destruct (Z.even (Qfloor z)); lia.
Qed.

Lemma round_le_half (z : Q) (k : Z) :
  (z < inject_Z k + (1 # 2))%Q -> Js.roundHalfEven z <= k.
Proof.
  intros H. pose proof (Qfloor_le z) as Hfl.
  assert (Hf : Qfloor z <= k).
  { assert (L : (inject_Z (Qfloor z) < inject_Z (k + 1))%Q).
    { rewrite inject_Z_plus. unfold inject_Z at 3. lra. }
    rewrite <- Zlt_Qlt in L. lia. }
  unfold Js.roundHalfEven.
  destruct (Qcompare_spec (z - inject_Z (Qfloor z)) (1 # 2)) as [E | E | E].
  - destruct (Z.even (Qfloor z)); [exact Hf | ].
    assert (L : (inject_Z (Qfloor z) < inject_Z k)%Q) by lra.
    rewrite <- Zlt_Qlt in L. lia.
  - exact Hf.
  - assert (L : (inject_Z (Qfloor z) < inject_Z k)%Q) by lra.
    rewrite <- Zlt_Qlt in L. lia.
Qed.

Lemma round_le (z : Q) (k : Z) : (z <= inject_Z k)%Q -> Js.roundHalfEven z <= k.
Proof. intros H. apply round_le_half. lra. Qed.

Lemma roundPositive_grid (x : Q) :
  Js.roundPositive x = (inject_Z (Js.roundHalfEven (x / Js.pow2 (Js.grid x))) * Js.pow2 (Js.grid x))%Q.
Proof. reflexivity. Qed.

Lemma toDouble_pos (x : Q) : (0 < x)%Q -> Js.toDouble x = Js.roundPositive x.
Proof.
  intros H. unfold Js.toDouble. apply Qgt_alt in H. now rewrite H.
Qed.

Lemma toDouble_zero (x : Q) : x == 0 -> Js.toDouble x = 0%Q.
Proof.
  intros H. unfold Js.toDouble. apply Qeq_alt in H. now rewrite H.
Qed.

Lemma scaled_integer (c k j : Z) :
  j <= k -> (inject_Z c * Js.pow2 k == inject_Z (c * 2 ^ (k - j)) * Js.pow2 j)%Q.
Proof.
  intros H. replace k with ((k - j) + j) at 1 by lia.
  rewrite pow2_plus, (pow2_Z (k - j)) by lia. rewrite inject_Z_mult. ring.
Qed.

Lemma roundPositive_le (x : Q) (c k : Z) :
  Js.grid x <= k -> (x <= inject_Z c * Js.pow2 k)%Q ->
  (Js.roundPositive x <= inject_Z c * Js.pow2 k)%Q.
Proof.
  intros Hk Hx. rewrite roundPositive_grid.
  rewrite (scaled_integer c k (Js.grid x) Hk) in *.
  apply Qmult_le_r; [apply pow2_pos | ].
  rewrite <- Zle_Qle. apply round_le.
  apply Qle_shift_div_r; [apply pow2_pos | exact Hx].
Qed.

Lemma roundPositive_ge (x : Q) (c k : Z) :
  Js.grid x <= k -> (inject_Z c * Js.pow2 k <= x)%Q ->
  (inject_Z c * Js.pow2 k <= Js.roundPositive x)%Q.
Proof.
  intros Hk Hx. rewrite roundPositive_grid.
  rewrite (scaled_integer c k (Js.grid x) Hk) in *.
  apply Qmult_le_r; [apply pow2_pos | ].
  rewrite <- Zle_Qle. apply round_ge.
  apply Qle_shift_div_l; [apply pow2_pos | exact Hx].
Qed.

Lemma roundPositive_le_half (x : Q) (c : Z) :
  (x < (inject_Z c + (1 # 2)) * Js.pow2 (Js.grid x))%Q ->
  (Js.roundPositive x <= inject_Z c * Js.pow2 (Js.grid x))%Q.
Proof.
  intros Hx. rewrite roundPositive_grid.
  apply Qmult_le_r; [apply pow2_pos | ].
  rewrite <- Zle_Qle. apply round_le_half.
  apply Qlt_shift_div_r; [apply pow2_pos | exact Hx].
Qed.

(** The largest double below 1 is [1 - 2^-53]. *)
Lemma double_below_one (r : Q) :
  (0 <= r)%Q -> (r < 1)%Q -> Js.isDouble r -> (r <= 1 - Js.pow2 (-53))%Q.
Proof.
  intros H0 H1 Hd.
  assert (HP : Js.pow2 (-53) == 1 # 9007199254740992) by reflexivity.
  destruct (Qlt_le_dec 0 r) as [Hpos | Hneg]; [ | rewrite HP; lra].
  assert (He : Js.binade r < 0).
  { apply binade_lt; [exact Hpos | ]. change (Js.pow2 0) with 1%Q. exact H1. }
  destruct (Z.eq_dec (Js.binade r) (-1)) as [E | E].
  - unfold Js.isDouble in Hd. rewrite (toDouble_pos r Hpos) in Hd.
    assert (Hg : Js.grid r = -53) by (unfold Js.grid; rewrite E; reflexivity).
    rewrite roundPositive_grid, Hg in Hd.
    set (m := Js.roundHalfEven (r / Js.pow2 (-53))) in Hd.
    assert (Hm : m < 2 ^ 53).
    { rewrite Zlt_Qlt. change (inject_Z (2 ^ 53)) with (9007199254740992 # 1).
      rewrite HP in Hd. lra. }
    assert (Hm' : (inject_Z m <= inject_Z (2 ^ 53 - 1))%Q).
    { rewrite <- Zle_Qle. lia. }
    change (inject_Z (2 ^ 53 - 1)) with (9007199254740991 # 1) in Hm'.
    rewrite HP in *. lra.
  - destruct (binade_spec r Hpos) as [_ Hhi].
    assert (Hm : (Js.pow2 (Js.binade r + 1) <= Js.pow2 (-1))%Q) by (apply pow2_mono; lia).
    change (Js.pow2 (-1)) with (1 # 2) in Hm. rewrite HP. lra.
Qed.

Lemma mul_900000_bounds (r : Q) :
  (0 <= r)%Q -> (r < 1)%Q -> Js.isDouble r ->
  (0 <= Js.mul r (inject_Z 900000))%Q
  /\ (Js.mul r (inject_Z 900000) <= inject_Z 900000 - Js.pow2 (-33))%Q.
Proof.
  intros H0 H1 Hd.
  pose proof (double_below_one r H0 H1 Hd) as Hr.
  assert (HP53 : Js.pow2 (-53) == 1 # 9007199254740992) by reflexivity.
  assert (HP33 : Js.pow2 (-33) == 1 # 8589934592) by reflexivity.
  assert (HP19 : Js.pow2 19 == 524288 # 1) by reflexivity.
  assert (HP20 : Js.pow2 20 == 1048576 # 1) by reflexivity.
  unfold Js.mul. set (x := (r * inject_Z 900000)%Q).
  assert (Hx0 : (0 <= x)%Q) by (unfold x, inject_Z; lra).
  assert (Hx1 : (x <= (900000 # 1) - (900000 # 9007199254740992))%Q).
  { unfold x, inject_Z. rewrite HP53 in Hr. lra. }
  destruct (Qlt_le_dec 0 x) as [Hpos | Hneg].
  - rewrite (toDouble_pos x Hpos).
    assert (He : Js.binade x < 20).
    { apply binade_lt; [exact Hpos | ]. rewrite HP20. lra. }
    assert (Hg : Js.grid x <= -33) by (unfold Js.grid; lia).
    split.
    + assert (L := @roundPositive_ge x 0 0).
      change (inject_Z 0 * Js.pow2 0)%Q with (0 * 1)%Q in L.
      assert (L' : (0 * 1 <= Js.roundPositive x)%Q) by (apply L; [lia | lra]).
      lra.
    + destruct (Z.eq_dec (Js.binade x) 19) as [E | E].
      * assert (Hg19 : Js.grid x = -33) by (unfold Js.grid; rewrite E; reflexivity).
        assert (L := @roundPositive_le_half x 7730941132799999).
        rewrite Hg19, HP33 in L.
        change (inject_Z 7730941132799999) with (7730941132799999 # 1) in L.
        rewrite HP33. unfold inject_Z.
        assert (L' : (Js.roundPositive x
                      <= (7730941132799999 # 1) * (1 # 8589934592))%Q)
          by (apply L; lra).
        lra.
      * destruct (binade_spec x Hpos) as [_ Hhi].
        assert (Hm : (Js.pow2 (Js.binade x + 1) <= Js.pow2 19)%Q) by (apply pow2_mono; lia).
        assert (L := @roundPositive_le x 1 19).
        change (inject_Z 1) with 1%Q in L. rewrite HP19 in *.
        assert (L' : (Js.roundPositive x <= 1 * (524288 # 1))%Q)
          by (apply L; [lia | lra]).
        rewrite HP33. unfold inject_Z. lra.
  - assert (E : x == 0) by lra.
    rewrite (toDouble_zero x E). rewrite HP33. unfold inject_Z. lra.
Qed.

Lemma add_100000_bounds (p : Q) :
  (0 <= p)%Q -> (p <= inject_Z 900000 - Js.pow2 (-33))%Q ->
  (inject_Z 100000 <= Js.add (inject_Z 100000) p)%Q
  /\ (Js.add (inject_Z 100000) p <= inject_Z 1000000 - Js.pow2 (-33))%Q.
Proof.
  intros H0 H1.
  assert (HP33 : Js.pow2 (-33) == 1 # 8589934592) by reflexivity.
  assert (HP16 : Js.pow2 16 == 65536 # 1) by reflexivity.
  assert (HP20 : Js.pow2 20 == 1048576 # 1) by reflexivity.
  unfold Js.add. set (y := (inject_Z 100000 + p)%Q).
  assert (Hy0 : ((100000 # 1) <= y)%Q) by (unfold y, inject_Z; lra).
  assert (Hy1 : (y <= (1000000 # 1) - (1 # 8589934592))%Q).
  { unfold y. rewrite HP33 in H1. unfold inject_Z in *. lra. }
  assert (Hpos : (0 < y)%Q) by lra.
  rewrite (toDouble_pos y Hpos).
  assert (He : Js.binade y < 20).
  { apply binade_lt; [exact Hpos | ]. rewrite HP20. lra. }
  assert (Hg : Js.grid y <= -33) by (unfold Js.grid; lia).
  split.
  - assert (L := @roundPositive_ge y 100000 0).
    change (inject_Z 100000 * Js.pow2 0)%Q with ((100000 # 1) * 1)%Q in L.
    assert (L' : ((100000 # 1) * 1 <= Js.roundPositive y)%Q) by (apply L; [lia | lra]).
    unfold inject_Z. lra.
  - assert (L := @roundPositive_le y 8589934591999999 (-33)).
    rewrite HP33 in *.
    change (inject_Z 8589934591999999) with (8589934591999999 # 1) in L.
    assert (L' : (Js.roundPositive y <= (8589934591999999 # 1) * (1 # 8589934592))%Q)
      by (apply L; [lia | lra]).
    unfold inject_Z. lra.
Qed.

Lemma otpNumber_range (r : Q) :
  (0 <= r)%Q -> (r < 1)%Q -> Js.isDouble r -> 100000 <= otpNumber r <= 999999.
Proof.
  intros H0 H1 Hd.
  destruct (mul_900000_bounds r H0 H1 Hd) as [Hp0 Hp1].
  destruct (add_100000_bounds _ Hp0 Hp1) as [Hq0 Hq1].
  assert (HP33 : Js.pow2 (-33) == 1 # 8589934592) by reflexivity.
  unfold otpNumber, Js.floor. split.
  - rewrite <- (Qfloor_Z 100000). apply Qfloor_resp_le. exact Hq0.
  - assert (L : Qfloor (Js.add (inject_Z 100000) (Js.mul r (inject_Z 900000))) < 1000000).
    { rewrite Zlt_Qlt. eapply Qle_lt_trans; [apply Qfloor_le | ].
      rewrite HP33 in Hq1. unfold inject_Z in *. lra. }
    lia.
Qed.

Set Implicit Arguments.

(** ** Lookup and replacement in the collection *)

Lemma opt_eqb_string_eq (a b : option string) :
  opt_eqb String.eqb a b = true <-> a = b.
Proof.
  destruct a as [x | ], b as [y | ]; simpl; split; intros H;
    try discriminate; try reflexivity.
  - apply String.eqb_eq in H. now subst.
  - inversion H. apply String.eqb_refl.
Qed.

Lemma opt_eqb_Z_eq (a b : option Z) :
  opt_eqb Z.eqb a b = true <-> a = b.
Proof.
  destruct a as [x | ], b as [y | ]; simpl; split; intros H;
    try discriminate; try reflexivity.
  - apply Z.eqb_eq in H. now subst.
  - inversion H. apply Z.eqb_refl.
Qed.

Lemma replaceById_found (u' : User) (us : list User) (u : User) :
  find (byId (_id u')) us = Some u ->
  exists us', replaceById u' us = Some us'
              /\ find (byId (_id u')) us' = Some u'
              /\ List.length us' = List.length us.
Proof.
  induction us as [ | v rest IH]; simpl; [discriminate | ].
  unfold byId at 1. destruct (N.eqb (_id v) (_id u')) eqn:E.
  - intros _. exists (u' :: rest). simpl. unfold byId at 1.
    rewrite N.eqb_refl. auto.
  - intros Hf. destruct (IH Hf) as (us' & -> & Hfind & Hlen).
    exists (v :: us'). simpl. unfold byId at 1. rewrite E. auto.
Qed.

Lemma replaceById_other (u' : User) (us us' : list User) (id : ObjectId) :
  replaceById u' us = Some us' -> id <> _id u' ->
  find (byId id) us' = find (byId id) us.
Proof.
  revert us'. induction us as [ | v rest IH]; simpl; [discriminate | ].
  intros us'. destruct (N.eqb (_id v) (_id u')) eqn:E.
  - intros [= <-] Hid. simpl. unfold byId.
    apply N.eqb_eq in E. rewrite E.
    destruct (N.eqb_spec (_id u') id); [congruence | reflexivity].
  - destruct (replaceById u' rest) as [rest' | ]; simpl; [ | discriminate].
    intros [= <-] Hid. simpl. rewrite (IH rest' eq_refl Hid). reflexivity.
Qed.

Lemma replaceById_Forall (P : User -> Prop) (u' : User) (us us' : list User) :
  replaceById u' us = Some us' -> P u' -> Forall P us -> Forall P us'.
Proof.
  revert us'. induction us as [ | v rest IH]; simpl; [discriminate | ].
  intros us'. destruct (N.eqb (_id v) (_id u')).
  - intros [= <-] Hu Hall. inversion Hall; subst. now constructor.
  - destruct (replaceById u' rest) as [rest' | ]; simpl; [ | discriminate].
    intros [= <-] Hu Hall. inversion Hall; subst. constructor; auto.
Qed.

(** Every document of the new collection is the replacement or a document
    of the old one. *)
Lemma replaceById_In (u' : User) (us us' : list User) (v : User) :
  replaceById u' us = Some us' -> In v us' -> v = u' \/ In v us.
Proof.
  revert us'. induction us as [ | x rest IH]; simpl; [discriminate | ].
  intros us'. destruct (N.eqb (_id x) (_id u')).
  - intros [= <-] [-> | Hin]; auto.
  - destruct (replaceById u' rest) as [rest' | ]; simpl; [ | discriminate].
    intros [= <-] [-> | Hin]; auto.
    destruct (IH rest' eq_refl Hin); auto.
Qed.

Lemma find_In (f : User -> bool) (us : list User) (u : User) :
  find f us = Some u -> In u us /\ f u = true.
Proof. apply find_some. Qed.

Lemma find_app_new (f : User -> bool) (us : list User) (u : User) :
  find f us = None -> f u = true -> find f (us ++ [u]) = Some u.
Proof.
  induction us as [ | v rest IH]; simpl; intros Hn Hu.
  - now rewrite Hu.
  - destruct (f v); [discriminate | auto].
Qed.

Lemma find_app_old (f : User -> bool) (us : list User) (u v : User) :
  find f us = Some v -> find f (us ++ [u]) = Some v.
Proof.
  induction us as [ | x rest IH]; simpl; [discriminate | ].
  destruct (f x); auto.
Qed.

(** ** What the handlers write *)

Lemma validate_consume (u : User) : validate (consume u) = validate u.
Proof. reflexivity. Qed.

Lemma validate_issue (w : World) (u : User) : validate (issue w u) = validate u.
Proof. reflexivity. Qed.

Section Facts.

Variable bcrypt_hash : string -> nat -> string -> string.
Variable env : ProcessEnv.

(** [save] of a loaded document whose [password] is not modified: the
    hook does nothing, and the write is an update by [_id]. *)
Lemma save_loaded (w : World) (d : Document) (s : Sys) :
  isNew d = false -> isModified P_password d = false ->
  validate (data d) = [] -> modifiedPaths d <> [] ->
  save bcrypt_hash w d s
  = match replaceById (data d) (users s) with
    | None => (s, Thrown DocumentNotFound)
    | Some us => (mkSys us (Update (data d) :: oplog s) (outbox s) (oidCounter s),
                  Returned (hydrate (data d)))
    end.
Proof.
  intros Hnew Hmod Hval Hne. unfold save, preSave.
  rewrite Hval, Hmod. simpl. rewrite Hnew.
  destruct (modifiedPaths d) as [ | p ps]; [congruence | ].
  unfold bind, updateOne.
  destruct (replaceById (data d) (users s)); reflexivity.
Qed.

Lemma save_invalid (w : World) (d : Document) (s : Sys) :
  validate (data d) <> [] ->
  exists failed, save bcrypt_hash w d s = (s, Thrown (ValidationError failed)).
Proof.
  intros Hval. unfold save.
  destruct (validate (data d)) as [ | p ps]; [congruence | ].
  eexists. reflexivity.
Qed.

Lemma preSave_isNew (w : World) (d : Document) :
  isNew (preSave bcrypt_hash w d) = isNew d.
Proof.
  unfold preSave.
  destruct (negb (isModified P_password d) || negb (Js.truthy (password (data d))));
    [reflexivity | ].
  destruct (password (data d)); reflexivity.
Qed.

(** [save] of a document built by [new User]: one insert, unless a
    validator or a unique index refuses it. *)
Lemma save_new (w : World) (d : Document) (s : Sys) :
  isNew d = true -> validate (data d) = [] ->
  save bcrypt_hash w d s
  = let u := data (preSave bcrypt_hash w d) in
    if violatesUnique u (users s) then (s, Thrown DuplicateKey)
    else (mkSys (users s ++ [u]) (Insert u :: oplog s) (outbox s) (oidCounter s),
          Returned (hydrate u)).
Proof.
  intros Hnew Hval. unfold save. rewrite Hval, preSave_isNew, Hnew.
  unfold bind, insertOne. cbv zeta.
  destruct (violatesUnique _ (users s)); reflexivity.
Qed.

Lemma consumeDoc_facts (u : User) :
  data (consumeDoc u) = consume u
  /\ isNew (consumeDoc u) = false
  /\ isModified P_password (consumeDoc u) = false.
Proof.
  unfold consumeDoc, set_otpExpiry, set_otp, set_isVerified, markModified,
    isModified, hydrate. simpl.
  repeat split.
  destruct (otpExpiry u), (otp u), (isVerified u); reflexivity.
Qed.

Lemma issueDoc_facts (w : World) (u : User) :
  data (issueDoc w u) = issue w u
  /\ isNew (issueDoc w u) = false
  /\ isModified P_password (issueDoc w u) = false.
Proof.
  unfold issueDoc, set_otpExpiry, set_otp, markModified, isModified, hydrate.
  repeat split. cbn [modifiedPaths data otp otpExpiry].
  destruct (negb (opt_eqb Z.eqb (Some (otpDeadline w)) (otpExpiry u))),
    (negb (opt_eqb String.eqb (Some (generateOTP (random w))) (otp u)));
    reflexivity.
Qed.

(** Nothing is modified by a re-issue only when the document already
    holds the very same code and deadline. *)
Lemma issueDoc_unmodified (w : World) (u : User) :
  modifiedPaths (issueDoc w u) = [] -> issue w u = u.
Proof.
  unfold issueDoc, set_otpExpiry, set_otp, markModified, hydrate.
  cbn [modifiedPaths data otp otpExpiry].
  destruct (opt_eqb Z.eqb (Some (otpDeadline w)) (otpExpiry u)) eqn:E1;
    cbn [negb]; [ | discriminate].
  destruct (opt_eqb String.eqb (Some (generateOTP (random w))) (otp u)) eqn:E2;
    cbn [negb]; [ | discriminate].
  intros _. apply opt_eqb_Z_eq in E1. apply opt_eqb_string_eq in E2.
  unfold issue. rewrite E1, E2. destruct u; reflexivity.
Qed.

Lemma consumeDoc_modified (u : User) (e : Z) :
  otpExpiry u = Some e -> modifiedPaths (consumeDoc u) <> [].
Proof.
  intros He. unfold consumeDoc, set_otpExpiry, markModified. simpl.
  rewrite He. simpl. discriminate.
Qed.

Lemma replaceById_self (us : list User) (u : User) :
  find (byId (_id u)) us = Some u -> replaceById u us = Some us.
Proof.
  induction us as [ | v rest IH]; simpl; [discriminate | ].
  unfold byId at 1. destruct (N.eqb (_id v) (_id u)) eqn:E.
  - now intros [= ->].
  - intros Hf. now rewrite (IH Hf).
Qed.

End Facts.

(** ** The handlers, path by path *)

Arguments save : simpl never.
Arguments validate : simpl never.
Arguments generateOTP : simpl never.
Arguments otpDeadline : simpl never.
Arguments emailSetter : simpl never.

Ltac run_handler :=
  unfold tryCatch, bind, respond, ret, throw, findById, findOne_email.

Section Handlers.

Variable bcrypt_hash : string -> nat -> string -> string.
Variable env : ProcessEnv.

Lemma verifyOTP_run (w : World) (body : VerifyBody) (s : Sys) :
  verifyOTP bcrypt_hash env w body s
  = match find (byId (verify_userId body)) (users s) with
    | None => (s, failure 404 "User not found")
    | Some u =>
        if otpAccepted w u (verify_otp body) then
          match validate u, replaceById (consume u) (users s) with
          | [], Some us =>
              (mkSys us (Update (consume u) :: oplog s) (outbox s) (oidCounter s),
               Returned (session env w (consume u)))
          | _, _ => (s, failure 500 "Failed to verify OTP")
          end
        else (s, failure 400 "Invalid or expired OTP")
    end.
Proof.
  unfold verifyOTP. run_handler.
  destruct (find (byId (verify_userId body)) (users s)) as [u | ]; simpl;
    [ | reflexivity].
  unfold otpAccepted.
  destruct (Js.strictEq (otp u) (verify_otp body)); simpl; [ | reflexivity].
  destruct (otpExpiry u) as [e | ] eqn:He; simpl; [ | reflexivity].
  rewrite Z.leb_antisym.
  destruct (e <? now w); simpl; [reflexivity | ].
  change (set_otpExpiry None (set_otp None (set_isVerified true (hydrate u))))
    with (consumeDoc u).
  destruct (consumeDoc_facts u) as (Hd & Hn & Hm).
  destruct (validate u) as [ | p ps] eqn:Hv.
  - rewrite save_loaded;
      [ | assumption | assumption | rewrite Hd, validate_consume; exact Hv
        | eapply consumeDoc_modified; eassumption ].
    rewrite Hd.
    destruct (replaceById (consume u) (users s)); reflexivity.
  - destruct (@save_invalid bcrypt_hash w (consumeDoc u) s) as [f ->];
      [ | reflexivity].
    rewrite Hd, validate_consume, Hv. discriminate.
Qed.

Lemma save_issueDoc (w : World) (u : User) (s : Sys) :
  match issueWrite w u s with
  | Some s' => save bcrypt_hash w (issueDoc w u) s = (s', Returned (hydrate (issue w u)))
  | None => exists e, save bcrypt_hash w (issueDoc w u) s = (s, Thrown e)
  end.
Proof.
  destruct (issueDoc_facts w u) as (Hd & Hn & Hm).
  unfold issueWrite. destruct (validate u) as [ | p ps] eqn:Hv.
  - destruct (modifiedPaths (issueDoc w u)) as [ | q qs] eqn:Hp.
    + unfold save, preSave. rewrite Hd, validate_issue, Hv, Hm.
      cbn [negb orb]. rewrite Hn, Hp. unfold ret. rewrite <- Hd.
      destruct (issueDoc w u) as [x n m]. simpl in *. now subst.
    + rewrite save_loaded;
        [ | assumption | assumption | rewrite Hd, validate_issue; exact Hv
          | rewrite Hp; discriminate ].
      rewrite Hd. destruct (replaceById (issue w u) (users s)); eauto.
  - destruct (@save_invalid bcrypt_hash w (issueDoc w u) s) as [f Hf]; eauto.
    rewrite Hd, validate_issue, Hv. discriminate.
Qed.

Lemma signin_run (w : World) (body_email : string) (s : Sys) :
  signin bcrypt_hash w body_email s
  = match find (byEmail (Some body_email)) (users s) with
    | None => (s, failure 404 "User not found")
    | Some u =>
        match issueWrite w u s with
        | None => (s, failure 500 "Failed to send OTP")
        | Some s' =>
            if delivers w
            then (deliver w body_email (generateOTP (random w)) s',
                  Returned (mkResponse 200 (JOtpSent "OTP sent to your email" (_id u))))
            else (s', failure 500 "Failed to send OTP")
        end
    end.
Proof.
  unfold signin. run_handler.
  destruct (find (byEmail (Some body_email)) (users s)) as [u | ]; simpl;
    [ | reflexivity].
  change (set_otpExpiry (Some (otpDeadline w))
            (set_otp (Some (generateOTP (random w))) (hydrate u)))
    with (issueDoc w u).
  pose proof (save_issueDoc w u s) as Hs.
  destruct (issueWrite w u s) as [s' | ].
  - rewrite Hs. unfold sendOTP, deliver. simpl.
    destruct (delivers w); reflexivity.
  - destruct Hs as [e ->]. reflexivity.
Qed.

Lemma resendOTP_run (w : World) (body_userId : ObjectId) (s : Sys) :
  resendOTP bcrypt_hash w body_userId s
  = match find (byId body_userId) (users s) with
    | None => (s, failure 404 "User not found")
    | Some u =>
        match issueWrite w u s with
        | None => (s, failure 500 "Failed to resend OTP")
        | Some s' =>
            match email u with
            | Some to =>
                if delivers w
                then (deliver w to (generateOTP (random w)) s',
                      Returned (mkResponse 200 (JMessage "OTP resent successfully")))
                else (s', failure 500 "Failed to resend OTP")
            | None => (s', failure 500 "Failed to resend OTP")
            end
        end
    end.
Proof.
  unfold resendOTP. run_handler.
  destruct (find (byId body_userId) (users s)) as [u | ]; simpl;
    [ | reflexivity].
  change (set_otpExpiry (Some (otpDeadline w))
            (set_otp (Some (generateOTP (random w))) (hydrate u)))
    with (issueDoc w u).
  pose proof (save_issueDoc w u s) as Hs.
  destruct (issueWrite w u s) as [s' | ].
  - rewrite Hs. unfold sendOTP, deliver. simpl.
    destruct (email u); [destruct (delivers w) | ]; reflexivity.
  - destruct Hs as [e ->]. reflexivity.
Qed.

Lemma validate_nil (u : User) :
  validate u = []
  <-> Js.truthy (email u) = true
      /\ (Js.truthy (googleId u) = true \/ Js.truthy (password u) = true)
      /\ Js.truthy (name u) = true.
Proof.
  unfold validate.
  destruct (Js.truthy (email u)), (Js.truthy (googleId u)),
    (Js.truthy (password u)), (Js.truthy (name u)); simpl;
    intuition discriminate.
Qed.

Lemma truthy_Some (x : string) : Js.truthy (Some x) = true <-> x <> "".
Proof.
  simpl. destruct (String.eqb_spec x ""); simpl; intuition discriminate.
Qed.

Lemma validate_signupDraft (id : ObjectId) (w : World) (body : SignupBody) :
  validate (signupDraft id w body) = [] ->
  exists pw, signup_password body = Some pw /\ pw <> ""
             /\ Js.truthy (signup_name body) = true
             /\ emailSetter (signup_email body) <> "".
Proof.
  rewrite validate_nil. cbn [signupDraft email googleId password name].
  intros (He & [Hg | Hp] & Hn); [discriminate Hg | ].
  destruct (signup_password body) as [pw | ]; [ | discriminate Hp].
  exists pw. rewrite <- !truthy_Some. auto.
Qed.

Lemma signup_run (w : World) (body : SignupBody) (s : Sys) :
  signup bcrypt_hash w body s
  = match validationErrors body with
    | (_ :: _) as errors => (s, Returned (mkResponse 400 (JErrors errors)))
    | [] =>
        match find (byEmail (Some (signup_email body))) (users s) with
        | Some _ => (s, failure 400 "User already exists")
        | None =>
            let id := oidCounter s in
            match validate (signupDraft id w body), signup_password body with
            | [], Some pw =>
                let u := signupUser bcrypt_hash id w body pw in
                if violatesUnique u (users s)
                then (bump s, failure 500 "Failed to create account")
                else
                  let s' := mkSys (users s ++ [u]) (Insert u :: oplog s)
                                  (outbox s) (N.succ id) in
                  if delivers w
                  then (deliver w (signup_email body) (generateOTP (random w)) s',
                        Returned (mkResponse 201 (JOtpSent "OTP sent to your email" id)))
                  else (s', failure 500 "Failed to create account")
            | _, _ => (bump s, failure 500 "Failed to create account")
            end
        end
    end.
Proof.
  unfold signup. run_handler.
  destruct (validationErrors body) as [ | e es]; [ | reflexivity].
  destruct (find (byEmail (Some (signup_email body))) (users s)) as [u | ];
    cbn [option_map]; [reflexivity | ].
  unfold new_User. cbn [option_map app].
  match goal with
  | |- context [save bcrypt_hash w ?d ?s1] =>
      set (doc := d); change s1 with (bump s)
  end.
  change (data doc) with (signupDraft (oidCounter s) w body) in *.
  cbv zeta.
  destruct (validate (signupDraft (oidCounter s) w body)) as [ | p ps] eqn:Hv.
  - destruct (validate_signupDraft _ _ _ Hv) as (pw & Hpw & Hne & _ & _).
    rewrite Hpw. rewrite save_new; [ | reflexivity | exact Hv].
    assert (Hu : data (preSave bcrypt_hash w doc)
                 = signupUser bcrypt_hash (oidCounter s) w body pw).
    { unfold preSave, doc, isModified. cbn [modifiedPaths data password].
      rewrite Hpw. cbn [app existsb Path_eqb orb negb Js.truthy].
      destruct (String.eqb_spec pw ""); [contradiction | ].
      reflexivity. }
    cbv zeta. rewrite Hu. cbn [users bump].
    destruct (violatesUnique _ (users s)); [reflexivity | ].
    unfold sendOTP, deliver. cbn.
    destruct (delivers w); reflexivity.
  - destruct (@save_invalid bcrypt_hash w doc (bump s)) as [f ->].
    + change (data doc) with (signupDraft (oidCounter s) w body).
      rewrite Hv. discriminate.
    + destruct (signup_password body); reflexivity.
Qed.

Lemma googleAuth_run (w : World) (body_token : string) (s : Sys) :
  googleAuth bcrypt_hash env w body_token s
  = match verifyIdToken w body_token (GOOGLE_CLIENT_ID env) with
    | Rejects => (s, failure 500 "Google authentication failed")
    | Ticket None => (s, failure 400 "Invalid token")
    | Ticket (Some payload) =>
        match find (byEmail (payload_email payload)) (users s) with
        | Some u => (s, Returned (session env w u))
        | None =>
            let u := googleUser (oidCounter s) payload in
            match validate u with
            | [] =>
                if violatesUnique u (users s)
                then (bump s, failure 500 "Google authentication failed")
                else (mkSys (users s ++ [u]) (Insert u :: oplog s) (outbox s)
                            (N.succ (oidCounter s)),
                      Returned (session env w u))
            | _ :: _ => (bump s, failure 500 "Google authentication failed")
            end
        end
    end.
Proof.
  unfold googleAuth. run_handler.
  destruct (verifyIdToken w body_token (GOOGLE_CLIENT_ID env)) as [ | [payload | ]];
    [reflexivity | | reflexivity].
  destruct (find (byEmail (payload_email payload)) (users s)) as [u | ];
    cbn [option_map]; [reflexivity | ].
  unfold new_User. cbn [option_map app].
  match goal with
  | |- context [save bcrypt_hash w ?d ?s1] =>
      set (doc := d); change s1 with (bump s)
  end.
  change (data doc) with (googleUser (oidCounter s) payload) in *.
  cbv zeta.
  destruct (validate (googleUser (oidCounter s) payload)) as [ | p ps] eqn:Hv.
  - rewrite save_new; [ | reflexivity | exact Hv].
    assert (Hu : data (preSave bcrypt_hash w doc) = googleUser (oidCounter s) payload).
    { unfold preSave, doc. cbn [data password Js.truthy negb].
      rewrite Bool.orb_true_r. reflexivity. }
    cbv zeta. rewrite Hu. cbn [users bump].
    destruct (violatesUnique _ (users s)); reflexivity.
  - destruct (@save_invalid bcrypt_hash w doc (bump s)) as [f ->].
    + change (data doc) with (googleUser (oidCounter s) payload).
      rewrite Hv. discriminate.
    + reflexivity.
Qed.

Lemma change_same (w : World) (rq : Request) (s : Sys) : change bcrypt_hash w rq s s.
Proof. apply change_none; auto. apply N.le_refl. Qed.

Lemma change_bump (w : World) (rq : Request) (s : Sys) : change bcrypt_hash w rq s (bump s).
Proof. apply change_none; auto. apply N.le_succ_diag_r. Qed.

Lemma issueWrite_cases (w : World) (u : User) (s s' : Sys) :
  issueWrite w u s = Some s' ->
  validate u = []
  /\ outbox s' = outbox s
  /\ ((s' = s /\ issue w u = u)
      \/ (replaceById (issue w u) (users s) = Some (users s')
          /\ oplog s' = Update (issue w u) :: oplog s
          /\ oidCounter s' = oidCounter s)).
Proof.
  unfold issueWrite. destruct (validate u); [ | discriminate].
  destruct (modifiedPaths (issueDoc w u)) eqn:Hp.
  - intros [= <-]. repeat split. left. split; [reflexivity | ].
    now apply issueDoc_unmodified.
  - destruct (replaceById (issue w u) (users s)) as [us | ]; [ | discriminate].
    intros [= <-]. simpl. repeat split. right. auto.
Qed.

Theorem handle_change (w : World) (rq : Request) (s : Sys) :
  change bcrypt_hash w rq s (fst (handle bcrypt_hash env w rq s)).
Proof.
  destruct rq as [body | body | body_email | body_token | body_userId];
    unfold handle.
  - rewrite signup_run.
    destruct (validationErrors body); [ | apply change_same].
    destruct (find _ (users s)); [apply change_same | ].
    cbv zeta.
    destruct (validate (signupDraft (oidCounter s) w body)) eqn:Hv;
      [ | apply change_bump].
    destruct (validate_signupDraft _ _ _ Hv) as (pw & Hpw & Hne & _).
    rewrite Hpw.
    destruct (violatesUnique _ (users s)) eqn:Hu; [apply change_bump | ].
    destruct (delivers w); eapply change_signup; eauto.
  - rewrite verifyOTP_run.
    destruct (find _ (users s)) as [u | ] eqn:Hf; [ | apply change_same].
    destruct (otpAccepted w u (verify_otp body)) eqn:Ha; [ | apply change_same].
    destruct (validate u) eqn:Hv; [ | apply change_same].
    destruct (replaceById (consume u) (users s)) eqn:Hr; [ | apply change_same].
    eapply change_verify; eauto.
  - rewrite signin_run.
    destruct (find _ (users s)) as [u | ] eqn:Hf; [ | apply change_same].
    destruct (issueWrite w u s) as [s' | ] eqn:Hw; [ | apply change_same].
    destruct (issueWrite_cases _ _ _ Hw) as (Hv & _ & [[-> _] | (Hr & Ho & Hc)]).
    + destruct (delivers w); apply change_none; simpl; auto using N.le_refl.
    + destruct (delivers w); eapply change_signin; eauto.
  - rewrite googleAuth_run.
    destruct (verifyIdToken w body_token _) as [ | [payload | ]];
      try apply change_same.
    destruct (find _ (users s)); [apply change_same | ].
    cbv zeta.
    destruct (validate (googleUser (oidCounter s) payload)) eqn:Hv;
      [ | apply change_bump].
    destruct (violatesUnique _ (users s)) eqn:Hu; [apply change_bump | ].
    eapply change_google; eauto.
  - rewrite resendOTP_run.
    destruct (find _ (users s)) as [u | ] eqn:Hf; [ | apply change_same].
    destruct (issueWrite w u s) as [s' | ] eqn:Hw; [ | apply change_same].
    destruct (issueWrite_cases _ _ _ Hw) as (Hv & _ & [[-> _] | (Hr & Ho & Hc)]).
    + destruct (email u); [destruct (delivers w) | ];
        apply change_none; simpl; auto using N.le_refl.
    + destruct (email u); [destruct (delivers w) | ]; eapply change_resend; eauto.
Qed.

End Handlers.

(** ** Invariants of the collection *)

Lemma replaceById_ids (u' : User) (us us' : list User) :
  replaceById u' us = Some us' -> map _id us' = map _id us.
Proof.
  revert us'. induction us as [ | v rest IH]; simpl; [discriminate | ].
  intros us'. destruct (N.eqb_spec (_id v) (_id u')) as [E | _].
  - intros [= <-]. simpl. now rewrite E.
  - destruct (replaceById u' rest) as [rest' | ]; simpl; [ | discriminate].
    intros [= <-]. simpl. now rewrite (IH rest' eq_refl).
Qed.

Lemma find_byId_unique (us : list User) (u : User) :
  NoDup (map _id us) -> In u us -> find (byId (_id u)) us = Some u.
Proof.
  induction us as [ | v rest IH]; simpl; [contradiction | ].
  intros Hnd [-> | Hin].
  - unfold byId. now rewrite N.eqb_refl.
  - inversion Hnd as [ | x xs Hnotin Hnd']; subst.
    unfold byId at 1. destruct (N.eqb_spec (_id v) (_id u)) as [E | _]; auto.
    exfalso. apply Hnotin. rewrite E. now apply in_map.
Qed.

Lemma find_byId_id (id : ObjectId) (us : list User) (u : User) :
  find (byId id) us = Some u -> _id u = id.
Proof.
  intros Hf. apply find_some in Hf. destruct Hf as [_ Hb].
  now apply N.eqb_eq in Hb.
Qed.

Section Invariants.

Variable bcrypt_hash : string -> nat -> string -> string.
Variable env : ProcessEnv.

(** One request keeps a property of the stored documents that the
    inserted documents have and that consuming and re-issuing a code
    keep. *)
Lemma change_Forall (P : User -> Prop) (w : World) (rq : Request) (s s' : Sys) :
  (forall id body pw,
      signup_password body = Some pw -> pw <> "" ->
      validate (signupDraft id w body) = [] ->
      P (signupUser bcrypt_hash id w body pw)) ->
  (forall id payload,
      validate (googleUser id payload) = [] -> P (googleUser id payload)) ->
  (forall u, P u -> P (consume u)) ->
  (forall u, P u -> P (issue w u)) ->
  change bcrypt_hash w rq s s' ->
  Forall P (users s) -> Forall P (users s').
Proof.
  intros Hsignup Hgoogle Hconsume Hissue Hch Hall.
  assert (Hfound : forall f u, find f (users s) = Some u -> P u).
  { intros f u Hf. apply find_some in Hf.
    rewrite Forall_forall in Hall. now apply Hall. }
  destruct Hch as
    [ rq s s' Hu _ _
    | body pw s s' Hpw Hne Hv _ Hu _ _
    | tok payload s s' Hv _ Hu _ _
    | body u s s' Hf _ _ Hr _ _
    | e u s s' Hf _ Hr _ _
    | id u s s' Hf _ Hr _ _ ].
  - now rewrite Hu.
  - rewrite Hu. apply Forall_app. split; [assumption | ].
    constructor; [ | constructor]. now apply Hsignup.
  - rewrite Hu. apply Forall_app. split; [assumption | ].
    constructor; [ | constructor]. now apply Hgoogle.
  - eapply replaceById_Forall; eauto.
  - eapply replaceById_Forall; eauto.
  - eapply replaceById_Forall; eauto.
Qed.

Lemma insert_idsKept (s : Sys) (u : User) :
  idsKept s -> _id u = oidCounter s ->
  Forall (fun v => (_id v < N.succ (oidCounter s))%N) (users s ++ [u])
  /\ NoDup (map _id (users s ++ [u])).
Proof.
  intros [Hlt Hnd] Hid. split.
  - apply Forall_app. split.
    + eapply Forall_impl; [ | exact Hlt]. intros v Hv. simpl in Hv. lia.
    + constructor; [ | constructor]. rewrite Hid. lia.
  - rewrite map_app. apply NoDup_app; [assumption | | ].
    + simpl. constructor; [intros [] | constructor].
    + intros a Ha [<- | []]. apply in_map_iff in Ha.
      destruct Ha as (v & Hv & Hin).
      rewrite Forall_forall in Hlt. specialize (Hlt v Hin). simpl in Hlt. lia.
Qed.

Lemma update_idsKept (s s' : Sys) (f : User -> bool) (u u' : User) :
  idsKept s -> find f (users s) = Some u -> _id u' = _id u ->
  replaceById u' (users s) = Some (users s') ->
  oidCounter s' = oidCounter s ->
  idsKept s'.
Proof.
  intros [Hlt Hnd] Hf Hid Hr Hc. unfold idsKept.
  rewrite Hc, (replaceById_ids _ _ Hr). split; [ | assumption].
  eapply replaceById_Forall; eauto.
  apply find_some in Hf. destruct Hf as [Hin _].
  rewrite Forall_forall in Hlt. rewrite Hid. exact (Hlt u Hin).
Qed.

Lemma change_idsKept (w : World) (rq : Request) (s s' : Sys) :
  change bcrypt_hash w rq s s' -> idsKept s -> idsKept s'.
Proof.
  intros Hch Hk.
  destruct Hch as
    [ rq s s' Hu _ Hc
    | body pw s s' _ _ _ _ Hu _ Hc
    | tok payload s s' _ _ Hu _ Hc
    | body u s s' Hf _ _ Hr _ Hc
    | e u s s' Hf _ Hr _ Hc
    | id u s s' Hf _ Hr _ Hc ].
  - unfold idsKept. rewrite Hu. destruct Hk as [Hlt Hnd].
    split; [ | assumption].
    eapply Forall_impl; [ | exact Hlt]. intros v Hv. simpl in Hv. lia.
  - unfold idsKept. rewrite Hu, Hc. now apply insert_idsKept.
  - unfold idsKept. rewrite Hu, Hc. now apply insert_idsKept.
  - exact (@update_idsKept s s' _ u (consume u) Hk Hf eq_refl Hr Hc).
  - exact (@update_idsKept s s' _ u (issue w u) Hk Hf eq_refl Hr Hc).
  - exact (@update_idsKept s s' _ u (issue w u) Hk Hf eq_refl Hr Hc).
Qed.

Lemma reachable_idsKept (s : Sys) :
  reachable bcrypt_hash env s -> idsKept s.
Proof.
  induction 1 as [ | s w rq _ IH].
  - split; constructor.
  - eapply change_idsKept; [apply handle_change | exact IH].
Qed.

Lemma change_paired (w : World) (rq : Request) (s s' : Sys) :
  change bcrypt_hash w rq s s' ->
  Forall paired (users s) -> Forall paired (users s').
Proof.
  apply change_Forall.
  - intros. right. simpl. eauto.
  - intros. left. simpl. auto.
  - intros. left. simpl. auto.
  - intros. right. simpl. eauto.
Qed.


(** With a [bcrypt.hash] that never answers the empty string, every
    stored document passes the validators again. *)
Hypothesis bcrypt_hash_nonempty :
  forall plaintext rounds salt, bcrypt_hash plaintext rounds salt <> "".

Lemma change_valid (w : World) (rq : Request) (s s' : Sys) :
  change bcrypt_hash w rq s s' ->
  Forall (fun u => validate u = []) (users s) ->
  Forall (fun u => validate u = []) (users s').
Proof.
  apply change_Forall.
  - intros id body pw Hpw Hne Hv.
    apply validate_nil in Hv. apply validate_nil.
    destruct Hv as (He & _ & Hn). simpl in *.
    repeat split; try assumption. right.
    destruct (String.eqb_spec (bcrypt_hash pw 10 (salt w)) "") as [E | _];
      [ | reflexivity].
    now apply bcrypt_hash_nonempty in E.
  - auto.
  - intros u Hu. exact Hu.
  - intros u Hu. exact Hu.
Qed.

Lemma reachable_valid (s : Sys) :
  reachable bcrypt_hash env s ->
  Forall (fun u => validate u = []) (users s).
Proof.
  induction 1 as [ | s w rq _ IH].
  - constructor.
  - eapply change_valid; [apply handle_change | exact IH].
Qed.

(** A stored document is the one its id finds, and it is valid. *)
Lemma reachable_found (s : Sys) (id : ObjectId) (u : User) :
  reachable bcrypt_hash env s ->
  find (byId id) (users s) = Some u ->
  validate u = [] /\ _id u = id /\ In u (users s).
Proof.
  intros Hr Hf. pose proof (reachable_valid Hr) as Hv.
  pose proof (find_byId_id _ _ Hf) as Hid.
  apply find_some in Hf. destruct Hf as [Hin _].
  rewrite Forall_forall in Hv. auto.
Qed.

End Invariants.


Lemma Sample_hash_nonempty (plaintext : string) (rounds : nat) (salt : string) :
  Sample.hash plaintext rounds salt <> "".
Proof. discriminate. Qed.



Lemma Sample_afterSignup_reachable :
  reachable Sample.hash Sample.env Sample.afterSignup.
Proof. apply reachable_step, reachable_boot. Qed.

Lemma Sample_afterResend_reachable :
  reachable Sample.hash Sample.env Sample.afterResend.
Proof. apply reachable_step, Sample_afterSignup_reachable. Qed.

(** * The claims *)

Section Claims.

Variable bcrypt_hash : string -> nat -> string -> string.
Variable bcrypt_compare : string -> string -> bool.
Variable env : ProcessEnv.

(** C8. [comparePassword] fails closed: for a user without a stored
    password hash it answers [false], whatever the plaintext. *)
Theorem comparePassword_without_hash (u : User) (plaintext : string) :
  password u = None -> comparePassword bcrypt_compare u plaintext = false.
Proof.
  intros Hp. unfold comparePassword. rewrite Hp. reflexivity.
Qed.

(** C9. When [googleAuth] finds a user by the verified email it writes
    nothing: the whole state is as before (so [googleId], [isVerified]
    and every other path of the document are untouched), and the answer
    is a session whose token carries that user's id, verified or not. *)
Theorem googleAuth_existing_user_no_write
    (w : World) (body_token : string) (payload : TokenPayload)
    (s : Sys) (u : User) :
  verifyIdToken w body_token (GOOGLE_CLIENT_ID env) = Ticket (Some payload) ->
  find (byEmail (payload_email payload)) (users s) = Some u ->
  googleAuth bcrypt_hash env w body_token s
  = (s, Returned (mkResponse 200
                    (JSession (generateToken env w (_id u)) (_id u)
                              (email u) (name u))))
  /\ jwt_userId (generateToken env w (_id u)) = _id u
  /\ find (byEmail (payload_email payload))
          (users (fst (googleAuth bcrypt_hash env w body_token s))) = Some u.
Proof.
  intros Hv Hf. rewrite googleAuth_run, Hv, Hf. auto.
Qed.

(** C4. When a user with the supplied email exists, [signup] writes
    nothing, whatever the request: the state is the one before. For a
    request that passed input validation the answer is "User already
    exists" (status 400); a request that did not pass it never reaches the
    lookup and is answered with its validation errors. *)
Theorem signup_existing_email
    (w : World) (body : SignupBody) (s : Sys) (u : User) :
  find (byEmail (Some (signup_email body))) (users s) = Some u ->
  fst (signup bcrypt_hash w body s) = s
  /\ (validationErrors body = [] ->
      snd (signup bcrypt_hash w body s) = failure 400 "User already exists")
  /\ (validationErrors body <> [] ->
      snd (signup bcrypt_hash w body s)
      = Returned (mkResponse 400 (JErrors (validationErrors body)))).
Proof.
  intros Hf. rewrite signup_run, Hf.
  destruct (validationErrors body) as [ | e es]; simpl.
  - split; [reflexivity | split; intros H; [reflexivity | now destruct H] ].
  - split; [reflexivity | split; intros H; [discriminate H | reflexivity] ].
Qed.

(** C10. If [signup] has inserted the new user and the mail is then not
    delivered, the caller is told "Failed to create account" (status 500)
    while the user stays in the collection with the code and its deadline;
    the same request sent again, in any world, is refused as a duplicate
    and creates nothing, and so is every valid request with that email. *)
Theorem signup_mail_failure_keeps_user
    (w : World) (body : SignupBody) (s : Sys) (u : User) :
  delivers w = false ->
  oplog (fst (signup bcrypt_hash w body s)) = Insert u :: oplog s ->
  snd (signup bcrypt_hash w body s) = failure 500 "Failed to create account"
  /\ users (fst (signup bcrypt_hash w body s)) = (users s ++ [u])%list
  /\ email u = Some (emailSetter (signup_email body))
  /\ otp u = Some (generateOTP (random w))
  /\ otpExpiry u = Some (otpDeadline w)
  /\ (forall w',
        signup bcrypt_hash w' body (fst (signup bcrypt_hash w body s))
        = (fst (signup bcrypt_hash w body s), failure 400 "User already exists"))
  /\ (forall w' body',
        signup_email body' = signup_email body ->
        fst (signup bcrypt_hash w' body' (fst (signup bcrypt_hash w body s)))
        = fst (signup bcrypt_hash w body s)
        /\ (validationErrors body' = [] ->
            snd (signup bcrypt_hash w' body' (fst (signup bcrypt_hash w body s)))
            = failure 400 "User already exists")).
Proof.
  intros Hmail. rewrite (signup_run bcrypt_hash w body s).
  assert (Hcons : forall x, oplog s <> x :: oplog s).
  { intros x E. apply (f_equal (@List.length Write)) in E. simpl in E. lia. }
  destruct (validationErrors body) as [ | e es] eqn:He;
    [ | intros E; now apply Hcons in E].
  destruct (find (byEmail (Some (signup_email body))) (users s)) eqn:Hf;
    [intros E; now apply Hcons in E | ].
  cbv zeta.
  destruct (validate (signupDraft (oidCounter s) w body));
    [ | intros E; now apply Hcons in E].
  destruct (signup_password body) as [pw | ];
    [ | intros E; now apply Hcons in E].
  destruct (violatesUnique _ (users s));
    [intros E; now apply Hcons in E | ].
  rewrite Hmail. cbn [fst snd oplog users].
  intros [= <-].
  set (u := signupUser bcrypt_hash (oidCounter s) w body pw).
  set (s' := mkSys (users s ++ [u]) (Insert u :: oplog s) (outbox s)
                   (N.succ (oidCounter s))).
  assert (Hfound : forall body', signup_email body' = signup_email body ->
            find (byEmail (Some (signup_email body'))) (users s') = Some u).
  { intros body' Hb. rewrite Hb. cbn [users s']. apply find_app_new; [exact Hf | ].
    unfold byEmail. apply opt_eqb_string_eq. reflexivity. }
  repeat split; try reflexivity.
  - intros w'. rewrite signup_run, He, (Hfound body eq_refl). reflexivity.
  - rewrite signup_run, (Hfound body' H).
    destruct (validationErrors body'); reflexivity.
  - intros Hb. rewrite signup_run, (Hfound body' H), Hb. reflexivity.
Qed.

Lemma otpAccepted_code (w : World) (u : User) (code : string) :
  otpAccepted w u (Js.Str code) = true
  <-> otp u = Some code /\ exists e, otpExpiry u = Some e /\ now w <= e.
Proof.
  unfold otpAccepted, Js.strictEq. split.
  - intros H. apply andb_prop in H. destruct H as [Hc He].
    destruct (otp u) as [c | ]; [ | discriminate].
    apply String.eqb_eq in Hc. subst c. split; [reflexivity | ].
    destruct (otpExpiry u) as [e | ]; [ | discriminate].
    exists e. split; [reflexivity | ]. now apply Z.leb_le.
  - intros [Hc (e & He & Hle)]. rewrite Hc, He, String.eqb_refl.
    now apply Z.leb_le.
Qed.

(** In a reachable state a stored document can be replaced under its id,
    and is then what the id finds. *)
Lemma reachable_replace (s : Sys) (u u' : User) :
  reachable bcrypt_hash env s -> In u (users s) -> _id u' = _id u ->
  exists us, replaceById u' (users s) = Some us
             /\ find (byId (_id u)) us = Some u'.
Proof.
  intros Hr Hin Hid.
  destruct (reachable_idsKept Hr) as [_ Hnd].
  pose proof (find_byId_unique _ _ Hnd Hin) as Hf.
  rewrite <- Hid in Hf.
  destruct (replaceById_found _ _ Hf) as (us & Hrep & Hfind & _).
  exists us. rewrite <- Hid. auto.
Qed.

(** C1, as the code has it. For a stored user [u] and a supplied code,
    [verifyOTP] succeeds exactly when the stored code is that code and the
    clock is not past the deadline ([now <= otpExpiry]: at the deadline
    itself the code is still good). On success exactly one write is sent,
    after which the user has no code, no deadline and [isVerified = true],
    and the answer carries a token for the user's id; otherwise the answer
    is "Invalid or expired OTP" (status 400) and nothing changes. *)
Theorem verifyOTP_succeeds_iff
    (w : World) (id : ObjectId) (code : string) (s : Sys) (u : User) :
  (forall plaintext rounds salt, bcrypt_hash plaintext rounds salt <> "") ->
  reachable bcrypt_hash env s ->
  find (byId id) (users s) = Some u ->
  (snd (verifyOTP bcrypt_hash env w (mkVerifyBody id (Js.Str code)) s)
   = Returned (mkResponse 200 (JSession (generateToken env w id) id (email u) (name u)))
   <-> otp u = Some code /\ exists e, otpExpiry u = Some e /\ now w <= e)
  /\ (otp u = Some code /\ (exists e, otpExpiry u = Some e /\ now w <= e) ->
      oplog (fst (verifyOTP bcrypt_hash env w (mkVerifyBody id (Js.Str code)) s))
      = Update (consume u) :: oplog s
      /\ find (byId id)
              (users (fst (verifyOTP bcrypt_hash env w (mkVerifyBody id (Js.Str code)) s)))
         = Some (consume u)
      /\ otp (consume u) = None /\ otpExpiry (consume u) = None
      /\ isVerified (consume u) = true
      /\ jwt_userId (generateToken env w id) = _id u)
  /\ (~ (otp u = Some code /\ exists e, otpExpiry u = Some e /\ now w <= e) ->
      verifyOTP bcrypt_hash env w (mkVerifyBody id (Js.Str code)) s
      = (s, failure 400 "Invalid or expired OTP")).
Proof.
  intros Hhash Hr Hf.
  destruct (reachable_found Hhash id Hr Hf) as (Hv & Hid & Hin).
  destruct (@reachable_replace s u (consume u) Hr Hin eq_refl) as (us & Hrep & Hfind).
  rewrite verifyOTP_run. cbn [verify_userId verify_otp]. rewrite Hf.
  rewrite <- otpAccepted_code.
  destruct (otpAccepted w u (Js.Str code)).
  - rewrite Hv, Hrep. unfold session. cbn [fst snd oplog users consume _id email name].
    rewrite Hid in *. repeat split; auto. intros H. now destruct H.
  - unfold failure. cbn [fst snd].
    repeat split; try discriminate; try reflexivity.
Qed.

(** What re-issuing does to a stored user, in a reachable state. *)
Lemma issueWrite_reachable (w : World) (s : Sys) (u : User) :
  (forall plaintext rounds salt, bcrypt_hash plaintext rounds salt <> "") ->
  reachable bcrypt_hash env s -> In u (users s) ->
  exists s', issueWrite w u s = Some s'
             /\ find (byId (_id u)) (users s') = Some (issue w u).
Proof.
  intros Hhash Hr Hin.
  pose proof (reachable_valid Hhash Hr) as Hall.
  rewrite Forall_forall in Hall. pose proof (Hall u Hin) as Hv.
  destruct (reachable_idsKept Hr) as [_ Hnd].
  unfold issueWrite. rewrite Hv.
  destruct (modifiedPaths (issueDoc w u)) eqn:Hp.
  - exists s. split; [reflexivity | ].
    rewrite (issueDoc_unmodified _ _ Hp). now apply find_byId_unique.
  - destruct (@reachable_replace s u (issue w u) Hr Hin eq_refl) as (us & -> & Hfind).
    eexists. split; [reflexivity | exact Hfind].
Qed.

Lemma verifyOTP_other_code (w : World) (id : ObjectId) (code : string)
    (s : Sys) (u : User) :
  find (byId id) (users s) = Some u -> otp u <> Some code ->
  verifyOTP bcrypt_hash env w (mkVerifyBody id (Js.Str code)) s
  = (s, failure 400 "Invalid or expired OTP").
Proof.
  intros Hf Hne. rewrite verifyOTP_run. cbn [verify_userId verify_otp].
  rewrite Hf.
  destruct (otpAccepted w u (Js.Str code)) eqn:Ha; [ | reflexivity].
  apply otpAccepted_code in Ha. destruct Ha as [Hc _]. contradiction.
Qed.

(** C7, as the code has it. [resendOTP] and [signin] overwrite the stored
    code and deadline of the user (there is one challenge per user, the
    latest), and afterwards [verifyOTP] refuses every code other than the
    newly issued one, whatever the time: in particular the previously
    issued code, unless [generateOTP] happened to draw that same code
    again. *)
Theorem reissue_invalidates_other_codes
    (w : World) (id : ObjectId) (previous : string) (s : Sys) (u : User) :
  (forall plaintext rounds salt, bcrypt_hash plaintext rounds salt <> "") ->
  reachable bcrypt_hash env s ->
  find (byId id) (users s) = Some u ->
  previous <> generateOTP (random w) ->
  (find (byId id) (users (fst (resendOTP bcrypt_hash w id s))) = Some (issue w u)
   /\ forall w',
       verifyOTP bcrypt_hash env w' (mkVerifyBody id (Js.Str previous))
                 (fst (resendOTP bcrypt_hash w id s))
       = (fst (resendOTP bcrypt_hash w id s), failure 400 "Invalid or expired OTP"))
  /\ (forall body_email,
        find (byEmail (Some body_email)) (users s) = Some u ->
        find (byId id) (users (fst (signin bcrypt_hash w body_email s)))
        = Some (issue w u)
        /\ forall w',
            verifyOTP bcrypt_hash env w' (mkVerifyBody id (Js.Str previous))
                      (fst (signin bcrypt_hash w body_email s))
            = (fst (signin bcrypt_hash w body_email s),
               failure 400 "Invalid or expired OTP")).
Proof.
  intros Hhash Hr Hf Hne.
  destruct (reachable_found Hhash id Hr Hf) as (Hv & Hid & Hin).
  destruct (@issueWrite_reachable w s u Hhash Hr Hin) as (s' & Hw & Hfind).
  rewrite Hid in Hfind.
  assert (Hcode : otp (issue w u) <> Some previous).
  { simpl. intros [= E]. now apply Hne. }
  split.
  - assert (Hu : users (fst (resendOTP bcrypt_hash w id s)) = users s').
    { rewrite resendOTP_run, Hf, Hw.
      destruct (email u); [destruct (delivers w) | ]; reflexivity. }
    rewrite Hu. split; [exact Hfind | ].
    intros w'. apply verifyOTP_other_code with (u := issue w u); [ | exact Hcode].
    now rewrite Hu.
  - intros body_email Hfe.
    assert (Hu : users (fst (signin bcrypt_hash w body_email s)) = users s').
    { rewrite signin_run, Hfe, Hw. destruct (delivers w); reflexivity. }
    rewrite Hu. split; [exact Hfind | ].
    intros w'. apply verifyOTP_other_code with (u := issue w u); [ | exact Hcode].
    now rewrite Hu.
Qed.

Lemma replaceById_In_new (u' : User) (us us' : list User) :
  replaceById u' us = Some us' -> In u' us'.
Proof.
  revert us'. induction us as [ | v rest IH]; simpl; [discriminate | ].
  intros us'. destruct (N.eqb (_id v) (_id u')).
  - intros [= <-]. now left.
  - destruct (replaceById u' rest) as [rest' | ]; simpl; [ | discriminate].
    intros [= <-]. right. now apply IH.
Qed.

Lemma handle_write (w : World) (rq : Request) (s : Sys) :
  oplog (fst (handle bcrypt_hash env w rq s)) = oplog s
  \/ exists u,
       (oplog (fst (handle bcrypt_hash env w rq s)) = Insert u :: oplog s
        \/ oplog (fst (handle bcrypt_hash env w rq s)) = Update u :: oplog s)
       /\ In u (users (fst (handle bcrypt_hash env w rq s)))
       /\ writtenOtp w rq u.
Proof.
  destruct (handle_change bcrypt_hash env w rq s) as
    [ rq s s' _ Ho _
    | body pw s s' _ _ _ _ Hu Ho _
    | tok payload s s' _ _ Hu Ho _
    | body u s s' _ _ _ Hr Ho _
    | e u s s' _ _ Hr Ho _
    | id u s s' _ _ Hr Ho _ ].
  - now left.
  - right. eexists. split; [left; exact Ho | ]. split.
    + rewrite Hu. apply in_or_app. right. now left.
    + simpl. auto.
  - right. eexists. split; [left; exact Ho | ]. split.
    + rewrite Hu. apply in_or_app. right. now left.
    + simpl. auto.
  - right. eexists. split; [right; exact Ho | ]. split.
    + eapply replaceById_In_new; eauto.
    + simpl. auto.
  - right. eexists. split; [right; exact Ho | ]. split.
    + eapply replaceById_In_new; eauto.
    + simpl. auto.
  - right. eexists. split; [right; exact Ho | ]. split.
    + eapply replaceById_In_new; eauto.
    + simpl. auto.
Qed.


Lemma issueWrite_reissued (w : World) (u : User) (s s' : Sys) :
  issueWrite w u s = Some s' -> reissued w u s s' /\ outbox s' = outbox s.
Proof.
  intros Hw.
  destruct (issueWrite_cases w u s Hw) as (_ & Ho & [[-> E] | (Hr & Hl & _)]).
  - split; [right; auto | reflexivity].
  - split; [left; auto | exact Ho].
Qed.

(** A request answered 200 or 201 has had the effect of its handler, and
    when the handler issues a code the mail with that code has gone out. *)
Lemma handle_success_effect (w : World) (rq : Request) (s : Sys) (r : Response) :
  snd (handle bcrypt_hash env w rq s) = Returned r ->
  status r = 200 \/ status r = 201 ->
  otpEffect w rq s (fst (handle bcrypt_hash env w rq s))
  /\ (issuesOtp rq = true ->
      exists to,
        outbox (fst (handle bcrypt_hash env w rq s))
        = mkMail to (generateOTP (random w)) :: outbox s).
Proof.
  assert (Hno : forall (s' : Sys) (code : Z) (j : Json) (G : Prop),
            code <> 200 -> code <> 201 ->
            snd (s', Returned (mkResponse code j)) = Returned r ->
            status r = 200 \/ status r = 201 -> G).
  { intros s' code j G H2 H3 [= <-] [H | H]; simpl in H; contradiction. }
  destruct rq as [body | body | body_email | body_token | body_userId];
    unfold handle.
  - rewrite signup_run.
    destruct (validationErrors body); [ | apply Hno; discriminate].
    destruct (find _ (users s)); [apply Hno; discriminate | ].
    cbv zeta.
    destruct (validate (signupDraft (oidCounter s) w body));
      [ | apply Hno; discriminate].
    destruct (signup_password body) as [pw | ]; [ | apply Hno; discriminate].
    destruct (violatesUnique _ (users s)); [apply Hno; discriminate | ].
    destruct (delivers w); [ | apply Hno; discriminate].
    intros _ _. cbn [fst deliver users oplog outbox]. split.
    + eexists. repeat split.
    + intros _. eexists. reflexivity.
  - rewrite verifyOTP_run.
    destruct (find _ (users s)) as [u | ] eqn:Hf; [ | apply Hno; discriminate].
    destruct (otpAccepted w u (verify_otp body)); [ | apply Hno; discriminate].
    destruct (validate u); [ | apply Hno; discriminate].
    destruct (replaceById (consume u) (users s)) as [us | ] eqn:Hr;
      [ | apply Hno; discriminate].
    intros _ _. cbn [fst users oplog]. split; [ | discriminate].
    exists u. repeat split; auto.
  - rewrite signin_run.
    destruct (find _ (users s)) as [u | ] eqn:Hf; [ | apply Hno; discriminate].
    destruct (issueWrite w u s) as [s' | ] eqn:Hw; [ | apply Hno; discriminate].
    destruct (delivers w); [ | apply Hno; discriminate].
    destruct (issueWrite_reissued w u s Hw) as [Hre Ho].
    intros _ _. cbn [fst deliver users oplog outbox]. split.
    + exists u. split; [exact Hf | ].
      destruct Hre as [[H1 H2] | (H1 & H2 & H3)]; [left | right]; auto.
    + intros _. eexists. rewrite Ho. reflexivity.
  - rewrite googleAuth_run.
    destruct (verifyIdToken w body_token _) as [ | [payload | ] ];
      [apply Hno; discriminate | | apply Hno; discriminate].
    destruct (find _ (users s)).
    + intros _ _. split; [left; auto | discriminate].
    + cbv zeta.
      destruct (validate (googleUser (oidCounter s) payload));
        [ | apply Hno; discriminate].
      destruct (violatesUnique _ (users s)); [apply Hno; discriminate | ].
      intros _ _. cbn [fst users oplog]. split; [ | discriminate].
      right. eexists. repeat split.
  - rewrite resendOTP_run.
    destruct (find _ (users s)) as [u | ] eqn:Hf; [ | apply Hno; discriminate].
    destruct (issueWrite w u s) as [s' | ] eqn:Hw; [ | apply Hno; discriminate].
    destruct (email u) as [to | ]; [ | apply Hno; discriminate].
    destruct (delivers w); [ | apply Hno; discriminate].
    destruct (issueWrite_reissued w u s Hw) as [Hre Ho].
    intros _ _. cbn [fst deliver users oplog outbox]. split.
    + exists u. split; [exact Hf | ].
      destruct Hre as [[H1 H2] | (H1 & H2 & H3)]; [left | right]; auto.
    + intros _. eexists. rewrite Ho. reflexivity.
Qed.


(** C2, as the code has it. For every double [Math.random()] can return
    (at least 0, below 1), the code is the decimal rendering of a whole
    number between 100000 and 999999, both of which are reached: six
    digits, the first of which is never 0. Every write of [signup],
    [signin] and [resendOTP] stores this code with the deadline
    [now + 600000] ms, and when one of them answers with success a user of
    the collection holds this code and this deadline and the mail with the
    code has gone out. *)
Theorem otp_six_digits_and_deadline (w : World) (rq : Request) (s : Sys) :
  (0 <= random w)%Q -> (random w < 1)%Q -> Js.isDouble (random w) ->
  (100000 <= otpNumber (random w) <= 999999
   /\ generateOTP (random w) = sixDigits (otpNumber (random w))
   /\ String.length (generateOTP (random w)) = 6%nat
   /\ Js.allDigits (generateOTP (random w)) = true
   /\ String.get 0 (generateOTP (random w)) <> Some "0"%char)
  /\ (generateOTP 0 = "100000"
      /\ generateOTP (9007199254740991 # 9007199254740992) = "999999")
  /\ (issuesOtp rq = true ->
      (oplog (fst (handle bcrypt_hash env w rq s)) = oplog s
       \/ exists u,
            (oplog (fst (handle bcrypt_hash env w rq s)) = Insert u :: oplog s
             \/ oplog (fst (handle bcrypt_hash env w rq s)) = Update u :: oplog s)
            /\ In u (users (fst (handle bcrypt_hash env w rq s)))
            /\ otp u = Some (generateOTP (random w))
            /\ otpExpiry u = Some (now w + 600000))
      /\ (forall r,
            snd (handle bcrypt_hash env w rq s) = Returned r ->
            status r = 200 \/ status r = 201 ->
            exists to u,
              outbox (fst (handle bcrypt_hash env w rq s))
              = mkMail to (generateOTP (random w)) :: outbox s
              /\ In u (users (fst (handle bcrypt_hash env w rq s)))
              /\ otp u = Some (generateOTP (random w))
              /\ otpExpiry u = Some (now w + 600000))).
Proof.
  intros H0 H1 Hd.
  pose proof (otpNumber_range _ H0 H1 Hd) as Hrange.
  assert (Hs : generateOTP (random w) = sixDigits (otpNumber (random w))).
  { unfold generateOTP. now apply toString_sixDigits. }
  destruct (sixDigits_shape Hrange) as (Hlen & Hdig & Hfirst).
  split; [ | split; [ | split] ].
  - rewrite Hs. auto.
  - split; vm_compute; reflexivity.
  - destruct (handle_write w rq s) as [Ho | (u & Ho & Hin & Hw)];
      [now left | right].
    exists u. split; [exact Ho | split; [exact Hin | ] ].
    destruct rq; try discriminate H; exact Hw.
  - intros r Hres Hst.
    destruct (handle_success_effect w rq s Hres Hst) as [Heff Hmail].
    destruct (Hmail H) as [to Hto]. exists to.
    set (s' := fst (handle bcrypt_hash env w rq s)) in *.
    assert (Hre : forall u, In u (users s) -> reissued w u s s' ->
              exists v, outbox s' = mkMail to (generateOTP (random w)) :: outbox s
                        /\ In v (users s')
                        /\ otp v = Some (generateOTP (random w))
                        /\ otpExpiry v = Some (now w + 600000)).
    { intros u Hin [[Hr _] | (Hu & _ & E)].
      - exists (issue w u). split; [exact Hto | ].
        split; [eapply replaceById_In_new; eauto | split; reflexivity].
      - exists u. rewrite Hu. split; [exact Hto | split; [exact Hin | ] ].
        rewrite <- E. split; reflexivity. }
    destruct rq as [body | body | body_email | body_token | body_userId];
      try discriminate H; cbn [otpEffect] in Heff.
    + destruct Heff as (u & Hu & _ & Hc & He).
      exists u. split; [exact Hto | ]. rewrite Hu.
      split; [apply in_or_app; right; now left | split; [exact Hc | exact He] ].
    + destruct Heff as (u & Hf & Hr). apply find_some in Hf.
      destruct Hf as [Hin _]. exact (Hre u Hin Hr).
    + destruct Heff as (u & Hf & Hr). apply find_some in Hf.
      destruct Hf as [Hin _]. exact (Hre u Hin Hr).
Qed.

(** A document with the next [ObjectId] and an email nobody has passes
    the unique indexes. *)
Lemma fresh_passes_indexes (s : Sys) (u : User) (q : option string) :
  idsKept s -> _id u = oidCounter s ->
  find (byEmail q) (users s) = None ->
  email u = option_map emailSetter q ->
  violatesUnique u (users s) = false.
Proof.
  intros [Hlt _] Hid Hf He. unfold violatesUnique.
  destruct (existsb _ (users s)) eqn:Hex; [ | reflexivity].
  apply existsb_exists in Hex. destruct Hex as (v & Hin & Hv).
  apply Bool.orb_true_iff in Hv. destruct Hv as [Hv | Hv].
  - apply N.eqb_eq in Hv. rewrite Forall_forall in Hlt.
    specialize (Hlt v Hin). simpl in Hlt. lia.
  - pose proof (find_none _ _ Hf v Hin) as Hn. unfold byEmail in Hn.
    rewrite <- He in Hn. congruence.
Qed.

(** C3, as the code has it. For a verified payload with a non-empty
    subject, email and name, whose email matches no stored user,
    [googleAuth] inserts exactly one user (verified, without password, with
    [googleId] the subject of the payload) and answers with a session for
    it; a later [googleAuth] with the same payload finds that user and
    creates nothing. A payload whose email matches a stored user creates
    nothing and gets a session for that user. *)
Theorem googleAuth_new_email
    (w : World) (body_token : string) (payload : TokenPayload) (s : Sys) :
  reachable bcrypt_hash env s ->
  verifyIdToken w body_token (GOOGLE_CLIENT_ID env) = Ticket (Some payload) ->
  (find (byEmail (payload_email payload)) (users s) = None ->
   Js.truthy (option_map emailSetter (payload_email payload)) = true ->
   sub payload <> "" ->
   Js.truthy (payload_name payload) = true ->
   googleAuth bcrypt_hash env w body_token s
   = (mkSys (users s ++ [googleUser (oidCounter s) payload])
            (Insert (googleUser (oidCounter s) payload) :: oplog s)
            (outbox s) (N.succ (oidCounter s)),
      Returned (mkResponse 200
                  (JSession (generateToken env w (oidCounter s)) (oidCounter s)
                            (option_map emailSetter (payload_email payload))
                            (payload_name payload))))
   /\ isVerified (googleUser (oidCounter s) payload) = true
   /\ password (googleUser (oidCounter s) payload) = None
   /\ googleId (googleUser (oidCounter s) payload) = Some (sub payload)
   /\ (forall w' token',
         verifyIdToken w' token' (GOOGLE_CLIENT_ID env) = Ticket (Some payload) ->
         googleAuth bcrypt_hash env w' token'
                    (fst (googleAuth bcrypt_hash env w body_token s))
         = (fst (googleAuth bcrypt_hash env w body_token s),
            Returned (mkResponse 200
                        (JSession (generateToken env w' (oidCounter s)) (oidCounter s)
                                  (option_map emailSetter (payload_email payload))
                                  (payload_name payload))))))
  /\ (forall u,
        find (byEmail (payload_email payload)) (users s) = Some u ->
        googleAuth bcrypt_hash env w body_token s
        = (s, Returned (mkResponse 200
                          (JSession (generateToken env w (_id u)) (_id u)
                                    (email u) (name u))))).
Proof.
  intros Hr Hv. split.
  - intros Hf He Hs Hn.
    set (u := googleUser (oidCounter s) payload).
    assert (Hval : validate u = []).
    { apply validate_nil. cbn [u googleUser email googleId password name].
      repeat split; auto. left. now apply truthy_Some. }
    assert (Huniq : violatesUnique u (users s) = false).
    { apply fresh_passes_indexes with (q := payload_email payload); auto.
      now apply (reachable_idsKept Hr). }
    assert (Hrun : googleAuth bcrypt_hash env w body_token s
                   = (mkSys (users s ++ [u]) (Insert u :: oplog s) (outbox s)
                            (N.succ (oidCounter s)),
                      Returned (session env w u))).
    { rewrite googleAuth_run, Hv, Hf. cbv zeta. fold u. rewrite Hval, Huniq.
      reflexivity. }
    split; [exact Hrun | ].
    repeat split.
    intros w' token' Hv'. rewrite Hrun. cbn [fst].
    rewrite googleAuth_run, Hv'. cbn [users].
    rewrite (find_app_new _ _ _ Hf); [reflexivity | ].
    unfold byEmail. apply opt_eqb_string_eq. reflexivity.
  - intros u Hf. rewrite googleAuth_run, Hv, Hf. reflexivity.
Qed.



End Claims.

Lemma comparePassword_without_hash_witness :
  comparePassword Sample.compare
    (googleUser 7%N (mkPayload "110" (Some "eve@x.com") (Some "Eve"))) "secret1"
  = false.
Proof.
  apply (@comparePassword_without_hash Sample.compare
           (googleUser 7%N (mkPayload "110" (Some "eve@x.com") (Some "Eve")))
           "secret1").
  reflexivity.
Defined.

Lemma googleAuth_existing_user_no_write_witness :
  isVerified Sample.ann = false /\ googleId Sample.ann = None
  /\ googleAuth Sample.hash Sample.env (Sample.world 5000 0 true) "token-of-ann"
       Sample.afterSignup
     = (Sample.afterSignup,
        Returned (mkResponse 200
                    (JSession (generateToken Sample.env (Sample.world 5000 0 true) 0%N)
                              0%N (Some "ann@x.com") (Some "Ann")))).
Proof.
  split; [reflexivity | split; [reflexivity | ] ].
  apply (@googleAuth_existing_user_no_write Sample.hash Sample.env
           (Sample.world 5000 0 true) "token-of-ann"
           (mkPayload "109" (Some "Ann@X.com") (Some "Ann G."))
           Sample.afterSignup Sample.ann).
  - reflexivity.
  - vm_compute. reflexivity.
Defined.

Lemma signup_existing_email_witness :
  fst (signup Sample.hash (Sample.world 5000 0 true) Sample.annBody Sample.afterSignup)
  = Sample.afterSignup
  /\ snd (signup Sample.hash (Sample.world 5000 0 true) Sample.annBody
            Sample.afterSignup)
     = failure 400 "User already exists".
Proof.
  destruct (@signup_existing_email Sample.hash (Sample.world 5000 0 true)
              Sample.annBody Sample.afterSignup Sample.ann) as (H1 & H2 & _).
  - vm_compute. reflexivity.
  - split; [exact H1 | apply H2; reflexivity].
Defined.

Lemma signup_mail_failure_keeps_user_witness :
  snd (signup Sample.hash (Sample.world 1000 (1 # 2) false) Sample.annBody boot)
  = failure 500 "Failed to create account"
  /\ users (fst (signup Sample.hash (Sample.world 1000 (1 # 2) false)
                   Sample.annBody boot))
     = [Sample.ann]
  /\ snd (signup Sample.hash (Sample.world 9000 (1 # 3) true) Sample.annBody
            (fst (signup Sample.hash (Sample.world 1000 (1 # 2) false)
                    Sample.annBody boot)))
     = failure 400 "User already exists".
Proof.
  destruct (@signup_mail_failure_keeps_user Sample.hash
              (Sample.world 1000 (1 # 2) false) Sample.annBody boot Sample.ann)
    as (H1 & H2 & _ & _ & _ & H6 & _).
  - reflexivity.
  - vm_compute. reflexivity.
  - split; [exact H1 | split; [exact H2 | ] ].
    rewrite (H6 (Sample.world 9000 (1 # 3) true)). reflexivity.
Defined.

(** C1 as stated fails at the boundary: Ann's code is good until 601000,
    and at [now = 601000] exactly [verifyOTP] still accepts it. *)
Lemma verifyOTP_at_deadline_succeeds :
  find (byId 0%N) (users Sample.afterSignup) = Some Sample.ann
  /\ otp Sample.ann = Some "550000"
  /\ otpExpiry Sample.ann = Some (now (Sample.world 601000 0 true))
  /\ snd (verifyOTP Sample.hash Sample.env (Sample.world 601000 0 true)
            (mkVerifyBody 0%N (Js.Str "550000")) Sample.afterSignup)
     = Returned (mkResponse 200
                   (JSession (generateToken Sample.env (Sample.world 601000 0 true) 0%N)
                             0%N (Some "ann@x.com") (Some "Ann")))
  /\ snd (verifyOTP Sample.hash Sample.env (Sample.world 601000 0 true)
            (mkVerifyBody 0%N (Js.Str "550000")) Sample.afterSignup)
     <> failure 400 "Invalid or expired OTP".
Proof.
  split; [vm_compute; reflexivity | ].
  split; [reflexivity | ].
  split; [reflexivity | ].
  split; [vm_compute; reflexivity | vm_compute; discriminate].
Qed.

Lemma verifyOTP_succeeds_iff_witness :
  snd (verifyOTP Sample.hash Sample.env (Sample.world 600999 0 true)
         (mkVerifyBody 0%N (Js.Str "550000")) Sample.afterSignup)
  = Returned (mkResponse 200
                (JSession (generateToken Sample.env (Sample.world 600999 0 true) 0%N)
                          0%N (Some "ann@x.com") (Some "Ann"))).
Proof.
  apply (@verifyOTP_succeeds_iff Sample.hash Sample.env
           (Sample.world 600999 0 true) 0%N "550000" Sample.afterSignup Sample.ann
           Sample_hash_nonempty Sample_afterSignup_reachable).
  - vm_compute. reflexivity.
  - split; [reflexivity | ].
    exists 601000. split; [reflexivity | ]. simpl. lia.
Defined.

(** C7 as stated fails when the generator repeats itself: Ann held
    ["550000"], asked for a new code, [Math.random()] answered as before,
    and the code she held is accepted afterwards. *)
Lemma reissue_same_code_still_accepted :
  otp Sample.ann = Some "550000"
  /\ oplog Sample.afterResend
     = [Update (issue (Sample.world 2000 (1 # 2) true) Sample.ann);
        Insert Sample.ann]
  /\ snd (verifyOTP Sample.hash Sample.env (Sample.world 3000 0 true)
            (mkVerifyBody 0%N (Js.Str "550000")) Sample.afterResend)
     = Returned (mkResponse 200
                   (JSession (generateToken Sample.env (Sample.world 3000 0 true) 0%N)
                             0%N (Some "ann@x.com") (Some "Ann"))).
Proof.
  split; [reflexivity | split; vm_compute; reflexivity].
Qed.

Lemma reissue_invalidates_other_codes_witness :
  verifyOTP Sample.hash Sample.env (Sample.world 3000 0 true)
    (mkVerifyBody 0%N (Js.Str "550000"))
    (fst (resendOTP Sample.hash (Sample.world 2000 (1 # 3) true) 0%N
            Sample.afterSignup))
  = (fst (resendOTP Sample.hash (Sample.world 2000 (1 # 3) true) 0%N
            Sample.afterSignup),
     failure 400 "Invalid or expired OTP").
Proof.
  destruct (@reissue_invalidates_other_codes Sample.hash Sample.env
              (Sample.world 2000 (1 # 3) true) 0%N "550000" Sample.afterSignup
              Sample.ann Sample_hash_nonempty Sample_afterSignup_reachable)
    as [[_ H] _].
  - vm_compute. reflexivity.
  - vm_compute. discriminate.
  - apply H.
Defined.

(** C2 as stated fails. No double below 1 gives a code with a leading
    zero such as ["000000"]: the lowest code is ["100000"]. And the codes
    are not spread exactly evenly over the random source: the double
    6004799503160661 / 2^53 lies below 2/3, where the share of 700000
    would begin, and yet gives 700000, because the sum is rounded up. *)
Lemma otp_never_starts_with_zero :
  generateOTP 0 = "100000"
  /\ ~ (exists r : Q,
          (0 <= r)%Q /\ (r < 1)%Q /\ Js.isDouble r /\ generateOTP r = "000000")
  /\ (Js.isDouble (6004799503160661 # 9007199254740992)
      /\ ((6004799503160661 # 9007199254740992) < 2 # 3)%Q
      /\ otpNumber (6004799503160661 # 9007199254740992) = 700000).
Proof.
  split; [vm_compute; reflexivity | split].
  - intros (r & H0 & H1 & Hd & E).
    pose proof (otpNumber_range r H0 H1 Hd) as Hrange.
    destruct (sixDigits_shape Hrange) as (_ & _ & Hfirst).
    unfold generateOTP in E. rewrite (toString_sixDigits Hrange) in E.
    rewrite E in Hfirst. now apply Hfirst.
  - split; [vm_compute; reflexivity | split; vm_compute; reflexivity].
Qed.

Lemma otp_six_digits_and_deadline_witness :
  generateOTP (1 # 2) = "550000"
  /\ String.length (generateOTP (1 # 2)) = 6%nat
  /\ exists to u,
       outbox Sample.afterSignup = [mkMail to "550000"]
       /\ In u (users Sample.afterSignup)
       /\ otp u = Some "550000" /\ otpExpiry u = Some (1000 + 600000).
Proof.
  destruct (@otp_six_digits_and_deadline Sample.hash Sample.env
              (Sample.world 1000 (1 # 2) true) (PostSignup Sample.annBody) boot)
    as ((_ & _ & Hlen & _) & _ & Hw).
  - vm_compute. discriminate.
  - vm_compute. reflexivity.
  - vm_compute. reflexivity.
  - split; [vm_compute; reflexivity | split; [exact Hlen | ] ].
    destruct (Hw eq_refl) as [_ Hok].
    destruct (Hok (mkResponse 201 (JOtpSent "OTP sent to your email" 0%N)))
      as (to & u & Ho & Hin & Hc & He).
    + vm_compute. reflexivity.
    + right. reflexivity.
    + exists to, u. change Sample.afterSignup
        with (fst (handle Sample.hash Sample.env (Sample.world 1000 (1 # 2) true)
                     (PostSignup Sample.annBody) boot)).
      split; [exact Ho | split; [exact Hin | split; [exact Hc | exact He] ] ].
Defined.


(** C3 as stated fails for a valid token whose profile has no [name]: the
    schema requires one, [save] throws, the answer is status 500 and no
    user is created. *)
Lemma googleAuth_without_name_creates_nothing :
  verifyIdToken (Sample.world 5000 0 true) "token-of-bob"
                (GOOGLE_CLIENT_ID Sample.env)
  = Ticket (Some (mkPayload "108" (Some "bob@x.com") None))
  /\ find (byEmail (Some "bob@x.com")) (users boot) = None
  /\ snd (googleAuth Sample.hash Sample.env (Sample.world 5000 0 true)
            "token-of-bob" boot)
     = failure 500 "Google authentication failed"
  /\ users (fst (googleAuth Sample.hash Sample.env (Sample.world 5000 0 true)
                   "token-of-bob" boot))
     = [].
Proof.
  repeat split; vm_compute; reflexivity.
Qed.

Lemma googleAuth_new_email_witness :
  users (fst (googleAuth Sample.hash Sample.env (Sample.world 5000 0 true)
                "token-of-eve" Sample.afterSignup))
  = [Sample.ann;
     mkUser 1%N (Some "eve@x.com") None (Some "110") (Some "Eve") None true None None].
Proof.
  destruct (@googleAuth_new_email Sample.hash Sample.env
              (Sample.world 5000 0 true) "token-of-eve"
              (mkPayload "110" (Some "eve@x.com") (Some "Eve"))
              Sample.afterSignup Sample_afterSignup_reachable)
    as [Hnew _].
  - reflexivity.
  - destruct Hnew as [Hrun _].
    + vm_compute. reflexivity.
    + vm_compute. reflexivity.
    + discriminate.
    + reflexivity.
    + rewrite Hrun. vm_compute. reflexivity.
Defined.


(** * Further properties of the handlers *)

Lemma find_exists (f : User -> bool) (us : list User) (u : User) :
  In u us -> f u = true -> exists v, find f us = Some v.
Proof.
  intros Hin Hf. destruct (find f us) as [v | ] eqn:E; [eauto | ].
  pose proof (find_none _ _ E u Hin) as Hn. congruence.
Qed.

Lemma nonempty_truthy (x : string) : x <> "" -> Js.truthy (Some x) = true.
Proof.
  intros Hx. simpl. destruct (String.eqb_spec x ""); [contradiction | reflexivity].
Qed.

Lemma idsKept_next_free (s : Sys) :
  idsKept s -> find (byId (oidCounter s)) (users s) = None.
Proof.
  intros [Hlt _]. destruct (find (byId (oidCounter s)) (users s)) as [v | ] eqn:E;
    [ | reflexivity].
  apply find_some in E. destruct E as [Hin Hb]. apply N.eqb_eq in Hb.
  rewrite Forall_forall in Hlt. specialize (Hlt v Hin). simpl in Hlt. lia.
Qed.

Section Further.

Variable bcrypt_hash : string -> nat -> string -> string.
Variable bcrypt_compare : string -> string -> bool.
Variable env : ProcessEnv.

Lemma reachable_paired (s : Sys) :
  reachable bcrypt_hash env s -> Forall paired (users s).
Proof.
  induction 1 as [ | s w rq _ IH].
  - constructor.
  - eapply change_paired; [apply handle_change | exact IH].
Qed.

Lemma signupDraft_valid (id : ObjectId) (w : World) (body : SignupBody) (pw : string) :
  signup_password body = Some pw -> pw <> "" ->
  Js.truthy (signup_name body) = true ->
  emailSetter (signup_email body) <> "" ->
  validate (signupDraft id w body) = [].
Proof.
  intros Hpw Hne Hn He. apply validate_nil.
  cbn [signupDraft email googleId password name]. rewrite Hpw.
  repeat split; auto using nonempty_truthy.
Qed.

(** X1. A valid signup with a fresh email, when the mail goes out: exactly
    one user is inserted, unverified, holding the bcrypt hash of the
    password, the code and its deadline; the answer is 201 with the id of
    that user (which finds it), and exactly one mail, to the address of the
    request and carrying the stored code, is sent. *)
Theorem signup_creates_unverified_user
    (w : World) (body : SignupBody) (pw : string) (s : Sys) :
  reachable bcrypt_hash env s ->
  validationErrors body = [] ->
  find (byEmail (Some (signup_email body))) (users s) = None ->
  signup_password body = Some pw -> pw <> "" ->
  Js.truthy (signup_name body) = true ->
  emailSetter (signup_email body) <> "" ->
  delivers w = true ->
  signup bcrypt_hash w body s
  = (mkSys (users s ++ [signupUser bcrypt_hash (oidCounter s) w body pw])
           (Insert (signupUser bcrypt_hash (oidCounter s) w body pw) :: oplog s)
           (mkMail (signup_email body) (generateOTP (random w)) :: outbox s)
           (N.succ (oidCounter s)),
     Returned (mkResponse 201 (JOtpSent "OTP sent to your email" (oidCounter s))))
  /\ find (byId (oidCounter s))
          (users s ++ [signupUser bcrypt_hash (oidCounter s) w body pw])
     = Some (signupUser bcrypt_hash (oidCounter s) w body pw)
  /\ isVerified (signupUser bcrypt_hash (oidCounter s) w body pw) = false
  /\ password (signupUser bcrypt_hash (oidCounter s) w body pw)
     = Some (bcrypt_hash pw 10 (salt w))
  /\ otp (signupUser bcrypt_hash (oidCounter s) w body pw)
     = Some (generateOTP (random w)).
Proof.
  intros Hr Herr Hf Hpw Hne Hn He Hmail.
  pose proof (reachable_idsKept Hr) as Hk.
  split; [ | split; [ | repeat split] ].
  - rewrite signup_run, Herr, Hf. cbv zeta.
    rewrite (signupDraft_valid _ w body Hpw Hne Hn He), Hpw.
    rewrite (@fresh_passes_indexes s
               (signupUser bcrypt_hash (oidCounter s) w body pw)
               (Some (signup_email body)) Hk eq_refl Hf eq_refl).
    rewrite Hmail. reflexivity.
  - apply find_app_new; [now apply idsKept_next_free | ].
    unfold byId. apply N.eqb_refl.
Qed.

(** X2. A signup that passed validation but carries no password (or an
    empty one) never creates an account: the schema requires a password
    when there is no [googleId], [save] throws, and the answer is 500
    "Failed to create account" with no user stored and no mail sent. *)
Theorem signup_without_password_fails
    (w : World) (body : SignupBody) (s : Sys) :
  validationErrors body = [] ->
  find (byEmail (Some (signup_email body))) (users s) = None ->
  signup_password body = None \/ signup_password body = Some "" ->
  signup bcrypt_hash w body s = (bump s, failure 500 "Failed to create account")
  /\ users (fst (signup bcrypt_hash w body s)) = users s
  /\ oplog (fst (signup bcrypt_hash w body s)) = oplog s
  /\ outbox (fst (signup bcrypt_hash w body s)) = outbox s.
Proof.
  intros Herr Hf Hpw.
  assert (Hrun : signup bcrypt_hash w body s
                 = (bump s, failure 500 "Failed to create account")).
  { rewrite signup_run, Herr, Hf. cbv zeta.
    destruct (validate (signupDraft (oidCounter s) w body)) eqn:Hv;
      [ | reflexivity].
    apply (validate_signupDraft bcrypt_hash) in Hv.
    destruct Hv as (pw & Hp & Hne & _).
    destruct Hpw as [Hnone | Hempty]; congruence. }
  rewrite Hrun. auto.
Qed.

(** X3. An id or an email that matches no stored user is answered 404
    "User not found" by [verifyOTP], [resendOTP] and [signin], and nothing
    at all changes. *)
Theorem unknown_user_not_found
    (w : World) (id : ObjectId) (supplied : Js.value) (body_email : string)
    (s : Sys) :
  (find (byId id) (users s) = None ->
   verifyOTP bcrypt_hash env w (mkVerifyBody id supplied) s
   = (s, failure 404 "User not found")
   /\ resendOTP bcrypt_hash w id s = (s, failure 404 "User not found"))
  /\ (find (byEmail (Some body_email)) (users s) = None ->
      signin bcrypt_hash w body_email s = (s, failure 404 "User not found")).
Proof.
  split.
  - intros Hf. rewrite verifyOTP_run, resendOTP_run. cbn [verify_userId].
    rewrite Hf. auto.
  - intros Hf. rewrite signin_run, Hf. reflexivity.
Qed.

(** X4. In a reachable state [verifyOTP] accepts nothing but a string: a
    request whose [otp] field is missing, [null] or of another type is
    answered "Invalid or expired OTP" for every stored user, also for one
    who has no code at all (where [undefined !== undefined] lets the first
    test of the guard pass and the missing deadline stops it). *)
Theorem verifyOTP_refuses_non_string
    (w : World) (id : ObjectId) (supplied : Js.value) (s : Sys) (u : User) :
  reachable bcrypt_hash env s ->
  find (byId id) (users s) = Some u ->
  (forall code, supplied <> Js.Str code) ->
  verifyOTP bcrypt_hash env w (mkVerifyBody id supplied) s
  = (s, failure 400 "Invalid or expired OTP").
Proof.
  intros Hr Hf Hns. rewrite verifyOTP_run. cbn [verify_userId verify_otp].
  rewrite Hf.
  assert (Hp : paired u).
  { pose proof (reachable_paired Hr) as Hall. rewrite Forall_forall in Hall.
    apply Hall. now apply find_some in Hf. }
  assert (Ha : otpAccepted w u supplied = false).
  { unfold otpAccepted, Js.strictEq.
    destruct Hp as [[Ho He] | (c & e & Ho & He)]; rewrite Ho, He.
    - apply Bool.andb_false_r.
    - destruct supplied as [ | | code | ]; try reflexivity.
      now contradiction (Hns code). }
  rewrite Ha. reflexivity.
Qed.

(** What an accepted [verifyOTP] does, in a reachable state. *)
Lemma verifyOTP_accepts
    (w : World) (id : ObjectId) (supplied : Js.value) (s : Sys) (u : User) :
  (forall plaintext rounds salt, bcrypt_hash plaintext rounds salt <> "") ->
  reachable bcrypt_hash env s ->
  find (byId id) (users s) = Some u ->
  otpAccepted w u supplied = true ->
  exists us,
    replaceById (consume u) (users s) = Some us
    /\ find (byId id) us = Some (consume u)
    /\ verifyOTP bcrypt_hash env w (mkVerifyBody id supplied) s
       = (mkSys us (Update (consume u) :: oplog s) (outbox s) (oidCounter s),
          Returned (session env w (consume u))).
Proof.
  intros Hhash Hr Hf Ha.
  destruct (reachable_found Hhash id Hr Hf) as (Hv & Hid & Hin).
  destruct (@reachable_replace bcrypt_hash env s u (consume u) Hr Hin eq_refl)
    as (us & Hrep & Hfind).
  exists us. rewrite Hid in Hfind. split; [exact Hrep | split; [exact Hfind | ] ].
  rewrite verifyOTP_run. cbn [verify_userId verify_otp].
  rewrite Hf, Ha, Hv, Hrep. reflexivity.
Qed.

Lemma verifyOTP_rejects
    (w : World) (id : ObjectId) (supplied : Js.value) (s : Sys) (u : User) :
  find (byId id) (users s) = Some u ->
  otpAccepted w u supplied = false ->
  verifyOTP bcrypt_hash env w (mkVerifyBody id supplied) s
  = (s, failure 400 "Invalid or expired OTP").
Proof.
  intros Hf Ha. rewrite verifyOTP_run. cbn [verify_userId verify_otp].
  rewrite Hf, Ha. reflexivity.
Qed.

(** X5. A code works once. After a [verifyOTP] that answered 200, every
    further [verifyOTP] for that user is answered "Invalid or expired OTP",
    whatever it supplies and whenever it comes, and changes nothing (until
    a new code is issued). *)
Theorem verifyOTP_code_is_single_use
    (w w' : World) (id : ObjectId) (supplied supplied' : Js.value)
    (s : Sys) (r : Response) :
  (forall plaintext rounds salt, bcrypt_hash plaintext rounds salt <> "") ->
  reachable bcrypt_hash env s ->
  snd (verifyOTP bcrypt_hash env w (mkVerifyBody id supplied) s) = Returned r ->
  status r = 200 ->
  verifyOTP bcrypt_hash env w' (mkVerifyBody id supplied')
            (fst (verifyOTP bcrypt_hash env w (mkVerifyBody id supplied) s))
  = (fst (verifyOTP bcrypt_hash env w (mkVerifyBody id supplied) s),
     failure 400 "Invalid or expired OTP").
Proof.
  intros Hhash Hr Hres Hst.
  destruct (find (byId id) (users s)) as [u | ] eqn:Hf.
  - destruct (otpAccepted w u supplied) eqn:Ha.
    + destruct (verifyOTP_accepts w id supplied Hhash Hr Hf Ha)
        as (us & _ & Hfind & Hrun).
      rewrite Hrun. cbn [fst].
      apply verifyOTP_rejects with (u := consume u); [exact Hfind | ].
      unfold otpAccepted. cbn [consume otpExpiry]. apply Bool.andb_false_r.
    + rewrite (verifyOTP_rejects w id supplied s Hf Ha) in Hres.
      cbn [snd failure] in Hres. injection Hres as <-. discriminate Hst.
  - rewrite verifyOTP_run in Hres. cbn [verify_userId] in Hres.
    rewrite Hf in Hres. cbn [snd failure] in Hres.
    injection Hres as <-. discriminate Hst.
Qed.

(** The collection after a valid [signup], whether the mail went out or
    not. *)
Lemma signup_users
    (w : World) (body : SignupBody) (pw : string) (s : Sys) :
  reachable bcrypt_hash env s ->
  validationErrors body = [] ->
  find (byEmail (Some (signup_email body))) (users s) = None ->
  signup_password body = Some pw -> pw <> "" ->
  Js.truthy (signup_name body) = true ->
  emailSetter (signup_email body) <> "" ->
  users (fst (signup bcrypt_hash w body s))
  = (users s ++ [signupUser bcrypt_hash (oidCounter s) w body pw])%list.
Proof.
  intros Hr Herr Hf Hpw Hne Hn He.
  pose proof (reachable_idsKept Hr) as Hk.
  rewrite signup_run, Herr, Hf. cbv zeta.
  rewrite (signupDraft_valid _ w body Hpw Hne Hn He), Hpw.
  rewrite (@fresh_passes_indexes s
             (signupUser bcrypt_hash (oidCounter s) w body pw)
             (Some (signup_email body)) Hk eq_refl Hf eq_refl).
  destruct (delivers w); reflexivity.
Qed.

(** X6. Signup, then verification: after a valid [signup] with a fresh
    email, [verifyOTP] with the id that [signup] answered and the code it
    generated succeeds at any time up to ten minutes after the signup
    (also when the mail was not delivered), answers a session for the new
    user, and leaves that user verified with no code. *)
Theorem signup_then_verifyOTP
    (w w' : World) (body : SignupBody) (pw : string) (s : Sys) :
  (forall plaintext rounds salt, bcrypt_hash plaintext rounds salt <> "") ->
  reachable bcrypt_hash env s ->
  validationErrors body = [] ->
  find (byEmail (Some (signup_email body))) (users s) = None ->
  signup_password body = Some pw -> pw <> "" ->
  Js.truthy (signup_name body) = true ->
  emailSetter (signup_email body) <> "" ->
  now w' <= now w + 600000 ->
  snd (verifyOTP bcrypt_hash env w'
         (mkVerifyBody (oidCounter s) (Js.Str (generateOTP (random w))))
         (fst (signup bcrypt_hash w body s)))
  = Returned (mkResponse 200
                (JSession (generateToken env w' (oidCounter s)) (oidCounter s)
                          (Some (emailSetter (signup_email body)))
                          (signup_name body)))
  /\ find (byId (oidCounter s))
          (users (fst (verifyOTP bcrypt_hash env w'
                         (mkVerifyBody (oidCounter s)
                                       (Js.Str (generateOTP (random w))))
                         (fst (signup bcrypt_hash w body s)))))
     = Some (consume (signupUser bcrypt_hash (oidCounter s) w body pw)).
Proof.
  intros Hhash Hr Herr Hf Hpw Hne Hn He Hnow.
  set (u := signupUser bcrypt_hash (oidCounter s) w body pw).
  assert (Hr1 : reachable bcrypt_hash env (fst (signup bcrypt_hash w body s))).
  { exact (reachable_step w (PostSignup body) Hr). }
  assert (Hf1 : find (byId (oidCounter s))
                     (users (fst (signup bcrypt_hash w body s))) = Some u).
  { rewrite (signup_users w body Hr Herr Hf Hpw Hne Hn He).
    apply find_app_new; [apply idsKept_next_free, (reachable_idsKept Hr) | ].
    unfold byId. apply N.eqb_refl. }
  assert (Ha : otpAccepted w' u (Js.Str (generateOTP (random w))) = true).
  { apply otpAccepted_code. split; [reflexivity | ].
    exists (otpDeadline w). split; [reflexivity | ].
    unfold otpDeadline. lia. }
  destruct (verifyOTP_accepts w' _ _ Hhash Hr1 Hf1 Ha) as (us & _ & Hfind & Hrun).
  rewrite Hrun. split; [reflexivity | exact Hfind].
Qed.

(** What [resendOTP] and [signin] leave in the collection for the user. *)
Lemma reissue_stores
    (w : World) (id : ObjectId) (s : Sys) (u : User) :
  (forall plaintext rounds salt, bcrypt_hash plaintext rounds salt <> "") ->
  reachable bcrypt_hash env s ->
  find (byId id) (users s) = Some u ->
  exists s',
    issueWrite w u s = Some s'
    /\ find (byId id) (users s') = Some (issue w u)
    /\ outbox s' = outbox s.
Proof.
  intros Hhash Hr Hf.
  destruct (reachable_found Hhash id Hr Hf) as (Hv & Hid & Hin).
  destruct (@issueWrite_reachable bcrypt_hash env w s u Hhash Hr Hin)
    as (s' & Hw & Hfind).
  exists s'. rewrite Hid in Hfind. split; [exact Hw | split; [exact Hfind | ] ].
  now destruct (issueWrite_cases w u s Hw) as (_ & Ho & _).
Qed.

(** X7. A re-issued code is good for ten minutes, to the millisecond:
    after [resendOTP] (or [signin]) at time [now], [verifyOTP] with the
    newly generated code succeeds exactly when its own clock is at most
    [now + 600000]. *)
Theorem reissued_code_valid_ten_minutes
    (w w' : World) (id : ObjectId) (s : Sys) (u : User) :
  (forall plaintext rounds salt, bcrypt_hash plaintext rounds salt <> "") ->
  reachable bcrypt_hash env s ->
  find (byId id) (users s) = Some u ->
  (snd (verifyOTP bcrypt_hash env w'
          (mkVerifyBody id (Js.Str (generateOTP (random w))))
          (fst (resendOTP bcrypt_hash w id s)))
   = Returned (mkResponse 200
                 (JSession (generateToken env w' id) id (email u) (name u)))
   <-> now w' <= now w + 600000)
  /\ (forall body_email,
        find (byEmail (Some body_email)) (users s) = Some u ->
        (snd (verifyOTP bcrypt_hash env w'
                (mkVerifyBody id (Js.Str (generateOTP (random w))))
                (fst (signin bcrypt_hash w body_email s)))
         = Returned (mkResponse 200
                       (JSession (generateToken env w' id) id (email u) (name u)))
         <-> now w' <= now w + 600000)).
Proof.
  intros Hhash Hr Hf.
  destruct (reachable_found Hhash id Hr Hf) as (Hv & Hid & Hin).
  destruct (@reissue_stores w id s u Hhash Hr Hf) as (s' & Hw & Hfind & _).
  assert (Hacc : otpAccepted w' (issue w u) (Js.Str (generateOTP (random w))) = true
                 <-> now w' <= now w + 600000).
  { rewrite otpAccepted_code. cbn [issue otp otpExpiry]. unfold otpDeadline.
    split.
    - intros (_ & e & [= <-] & Hle). lia.
    - intros Hle. split; [reflexivity | ]. eexists. split; [reflexivity | lia]. }
  assert (Hgen : forall s1,
            reachable bcrypt_hash env s1 -> users s1 = users s' ->
            (snd (verifyOTP bcrypt_hash env w'
                    (mkVerifyBody id (Js.Str (generateOTP (random w)))) s1)
             = Returned (mkResponse 200
                           (JSession (generateToken env w' id) id (email u) (name u)))
             <-> now w' <= now w + 600000)).
  { intros s1 Hr1 Hu. rewrite <- Hu in Hfind. rewrite <- Hacc.
    destruct (otpAccepted w' (issue w u) (Js.Str (generateOTP (random w)))) eqn:Ha.
    - destruct (verifyOTP_accepts w' _ _ Hhash Hr1 Hfind Ha) as (us & _ & _ & Hrun).
      rewrite Hrun. unfold session. cbn [snd consume issue _id email name].
      rewrite Hid. split; reflexivity.
    - rewrite (verifyOTP_rejects w' _ _ _ Hfind Ha). cbn [snd failure].
      split; discriminate. }
  split.
  - apply Hgen.
    + exact (reachable_step w (PostResendOtp id) Hr).
    + rewrite resendOTP_run, Hf, Hw.
      destruct (email u); [destruct (delivers w) | ]; reflexivity.
  - intros body_email Hfe. apply Hgen.
    + exact (reachable_step w (PostSignin body_email) Hr).
    + rewrite signin_run, Hfe, Hw. destruct (delivers w); reflexivity.
Qed.

Lemma valid_has_email (u : User) :
  validate u = [] -> exists to, email u = Some to.
Proof.
  intros Hv. apply validate_nil in Hv. destruct Hv as (He & _).
  destruct (email u) as [to | ]; [eauto | discriminate He].
Qed.

(** X8. Re-issuing with a working mail transport: the new code and
    deadline are stored for the user and one mail with that code goes out.
    [resendOTP] mails it to the stored address and answers "OTP resent
    successfully"; [signin] mails it to the address as typed in the
    request and answers with the user's id. *)
Theorem reissue_delivered
    (w : World) (id : ObjectId) (s : Sys) (u : User) :
  (forall plaintext rounds salt, bcrypt_hash plaintext rounds salt <> "") ->
  reachable bcrypt_hash env s ->
  find (byId id) (users s) = Some u ->
  delivers w = true ->
  (exists to,
      email u = Some to
      /\ snd (resendOTP bcrypt_hash w id s)
         = Returned (mkResponse 200 (JMessage "OTP resent successfully"))
      /\ outbox (fst (resendOTP bcrypt_hash w id s))
         = mkMail to (generateOTP (random w)) :: outbox s
      /\ find (byId id) (users (fst (resendOTP bcrypt_hash w id s)))
         = Some (issue w u))
  /\ (forall body_email,
        find (byEmail (Some body_email)) (users s) = Some u ->
        snd (signin bcrypt_hash w body_email s)
        = Returned (mkResponse 200 (JOtpSent "OTP sent to your email" id))
        /\ outbox (fst (signin bcrypt_hash w body_email s))
           = mkMail body_email (generateOTP (random w)) :: outbox s
        /\ find (byId id) (users (fst (signin bcrypt_hash w body_email s)))
           = Some (issue w u)).
Proof.
  intros Hhash Hr Hf Hmail.
  destruct (reachable_found Hhash id Hr Hf) as (Hv & Hid & Hin).
  destruct (@reissue_stores w id s u Hhash Hr Hf) as (s' & Hw & Hfind & Hout).
  destruct (@valid_has_email u Hv) as [to Hto].
  split.
  - exists to. split; [exact Hto | ].
    rewrite resendOTP_run, Hf, Hw, Hto, Hmail. cbn [fst snd deliver outbox users].
    rewrite Hout. auto.
  - intros body_email Hfe.
    rewrite signin_run, Hfe, Hw, Hmail. cbn [fst snd deliver outbox users].
    rewrite Hout, Hid. auto.
Qed.

(** X9. Re-issuing when the mail cannot be sent: the caller gets status
    500 ("Failed to resend OTP", "Failed to send OTP"), no mail is
    recorded, and yet the new code has already replaced the old one in the
    collection. *)
Theorem reissue_mail_failure
    (w : World) (id : ObjectId) (s : Sys) (u : User) :
  (forall plaintext rounds salt, bcrypt_hash plaintext rounds salt <> "") ->
  reachable bcrypt_hash env s ->
  find (byId id) (users s) = Some u ->
  delivers w = false ->
  (snd (resendOTP bcrypt_hash w id s) = failure 500 "Failed to resend OTP"
   /\ outbox (fst (resendOTP bcrypt_hash w id s)) = outbox s
   /\ find (byId id) (users (fst (resendOTP bcrypt_hash w id s)))
      = Some (issue w u))
  /\ (forall body_email,
        find (byEmail (Some body_email)) (users s) = Some u ->
        snd (signin bcrypt_hash w body_email s) = failure 500 "Failed to send OTP"
        /\ outbox (fst (signin bcrypt_hash w body_email s)) = outbox s
        /\ find (byId id) (users (fst (signin bcrypt_hash w body_email s)))
           = Some (issue w u)).
Proof.
  intros Hhash Hr Hf Hmail.
  destruct (@reissue_stores w id s u Hhash Hr Hf) as (s' & Hw & Hfind & Hout).
  split.
  - rewrite resendOTP_run, Hf, Hw, Hmail.
    destruct (email u); cbn [fst snd]; auto.
  - intros body_email Hfe.
    rewrite signin_run, Hfe, Hw, Hmail. cbn [fst snd]. auto.
Qed.

(** X10. [googleAuth] with a token the verifier rejects answers 500
    "Google authentication failed"; with a ticket that has no payload it
    answers 400 "Invalid token"; neither touches anything. *)
Theorem googleAuth_bad_token (w : World) (body_token : string) (s : Sys) :
  (verifyIdToken w body_token (GOOGLE_CLIENT_ID env) = Rejects ->
   googleAuth bcrypt_hash env w body_token s
   = (s, failure 500 "Google authentication failed"))
  /\ (verifyIdToken w body_token (GOOGLE_CLIENT_ID env) = Ticket None ->
      googleAuth bcrypt_hash env w body_token s
      = (s, failure 400 "Invalid token")).
Proof.
  split; intros Hv; rewrite googleAuth_run, Hv; reflexivity.
Qed.

(** X11. A client error has no effect: whenever a handler answers 400 or
    404, the collection, the mails and the id counter are exactly as
    before the request. *)
Theorem client_error_changes_nothing
    (w : World) (rq : Request) (s : Sys) (r : Response) :
  snd (handle bcrypt_hash env w rq s) = Returned r ->
  status r = 400 \/ status r = 404 ->
  fst (handle bcrypt_hash env w rq s) = s.
Proof.
  assert (Hno : forall (s' : Sys) (code : Z) (j : Json),
            code <> 400 -> code <> 404 ->
            snd (s', Returned (mkResponse code j)) = Returned r ->
            status r = 400 \/ status r = 404 -> fst (s', Returned (mkResponse code j)) = s).
  { intros s' code j H4 H5 [= <-] [H | H]; simpl in H; contradiction. }
  destruct rq as [body | body | body_email | body_token | body_userId];
    unfold handle.
  - rewrite signup_run.
    destruct (validationErrors body); [ | reflexivity].
    destruct (find _ (users s)); [reflexivity | ].
    cbv zeta.
    destruct (validate (signupDraft (oidCounter s) w body));
      [ | apply Hno; discriminate].
    destruct (signup_password body); [ | apply Hno; discriminate].
    destruct (violatesUnique _ (users s)); [apply Hno; discriminate | ].
    destruct (delivers w); apply Hno; discriminate.
  - rewrite verifyOTP_run.
    destruct (find _ (users s)) as [u | ]; [ | reflexivity].
    destruct (otpAccepted w u (verify_otp body)); [ | reflexivity].
    destruct (validate u); [ | apply Hno; discriminate].
    destruct (replaceById (consume u) (users s)); apply Hno; discriminate.
  - rewrite signin_run.
    destruct (find _ (users s)) as [u | ]; [ | reflexivity].
    destruct (issueWrite w u s); [ | apply Hno; discriminate].
    destruct (delivers w); apply Hno; discriminate.
  - rewrite googleAuth_run.
    destruct (verifyIdToken w body_token _) as [ | [payload | ] ];
      [apply Hno; discriminate | | reflexivity].
    destruct (find _ (users s)); [apply Hno; discriminate | ].
    cbv zeta.
    destruct (validate (googleUser (oidCounter s) payload));
      [ | apply Hno; discriminate].
    destruct (violatesUnique _ (users s)); apply Hno; discriminate.
  - rewrite resendOTP_run.
    destruct (find _ (users s)) as [u | ]; [ | reflexivity].
    destruct (issueWrite w u s); [ | apply Hno; discriminate].
    destruct (email u); [destruct (delivers w) | ]; apply Hno; discriminate.
Qed.

(** X12. In a reachable state the only server error of the three handlers
    that work on a stored user comes from the mail transport: [verifyOTP]
    never answers 500, and [signin] and [resendOTP] answer 500 only in a
    world where the mail is not delivered. *)
Theorem server_error_only_from_mail (w : World) (s : Sys) (r : Response) :
  (forall plaintext rounds salt, bcrypt_hash plaintext rounds salt <> "") ->
  reachable bcrypt_hash env s ->
  status r = 500 ->
  (forall body, snd (verifyOTP bcrypt_hash env w body s) <> Returned r)
  /\ (forall body_email,
        snd (signin bcrypt_hash w body_email s) = Returned r -> delivers w = false)
  /\ (forall body_userId,
        snd (resendOTP bcrypt_hash w body_userId s) = Returned r ->
        delivers w = false).
Proof.
  intros Hhash Hr Hst.
  assert (Hno : forall (s' : Sys) (code : Z) (j : Json),
            code <> 500 -> snd (s', Returned (mkResponse code j)) <> Returned r).
  { intros s' code j Hc [= <-]. simpl in Hst. contradiction. }
  split; [ | split].
  - intros body. rewrite verifyOTP_run.
    destruct (find _ (users s)) as [u | ] eqn:Hf; [ | apply Hno; discriminate].
    destruct (otpAccepted w u (verify_otp body)) eqn:Ha;
      [ | apply Hno; discriminate].
    destruct (reachable_found Hhash _ Hr Hf) as (Hv & Hid & Hin).
    destruct (@reachable_replace bcrypt_hash env s u (consume u) Hr Hin eq_refl)
      as (us & Hrep & _).
    rewrite Hv, Hrep. apply Hno. discriminate.
  - intros body_email. rewrite signin_run.
    destruct (find _ (users s)) as [u | ] eqn:Hf.
    + apply find_some in Hf. destruct Hf as [Hin _].
      destruct (@issueWrite_reachable bcrypt_hash env w s u Hhash Hr Hin)
        as (s' & Hw & _).
      rewrite Hw. destruct (delivers w); [ | reflexivity].
      intros H. now apply Hno in H.
    + intros H. now apply Hno in H.
  - intros body_userId. rewrite resendOTP_run.
    destruct (find _ (users s)) as [u | ] eqn:Hf.
    + destruct (reachable_found Hhash _ Hr Hf) as (Hv & Hid & Hin).
      destruct (@issueWrite_reachable bcrypt_hash env w s u Hhash Hr Hin)
        as (s' & Hw & _).
      destruct (@valid_has_email u Hv) as [to Hto].
      rewrite Hw, Hto. destruct (delivers w); [ | reflexivity].
      intros H. now apply Hno in H.
    + intros H. now apply Hno in H.
Qed.

(** X13. Mail discipline: one request sends at most one mail; only
    [signup], [signin] and [resendOTP] send any, only when the transport
    delivers, and the code in the mail is the freshly generated one, which
    at that moment is stored, with its deadline, on a user of the
    collection. [verifyOTP] and [googleAuth] never send mail. *)
Theorem mail_carries_the_stored_code (w : World) (rq : Request) (s : Sys) :
  outbox (fst (handle bcrypt_hash env w rq s)) = outbox s
  \/ (issuesOtp rq = true /\ delivers w = true
      /\ exists to u,
           outbox (fst (handle bcrypt_hash env w rq s))
           = mkMail to (generateOTP (random w)) :: outbox s
           /\ In u (users (fst (handle bcrypt_hash env w rq s)))
           /\ otp u = Some (generateOTP (random w))
           /\ otpExpiry u = Some (otpDeadline w)).
Proof.
  assert (Hissue : forall u s', In u (users s) -> issueWrite w u s = Some s' ->
            outbox s' = outbox s
            /\ exists v, In v (users s')
                         /\ otp v = Some (generateOTP (random w))
                         /\ otpExpiry v = Some (otpDeadline w)).
  { intros u s' Hin Hw.
    destruct (issueWrite_cases w u s Hw) as (_ & Ho & [[-> E] | (Hr & _ & _)]);
      (split; [exact Ho | ]).
    - exists u. rewrite <- E at 2 3. auto.
    - exists (issue w u). split; [ | auto].
      clear - Hr. revert Hr. generalize (users s'). generalize (issue w u).
      intros t us'. generalize (users s). intros us. revert us'.
      induction us as [ | x rest IH]; simpl; [discriminate | ].
      intros us'. destruct (N.eqb (_id x) (_id t)).
      + intros [= <-]. now left.
      + destruct (replaceById t rest) as [rest' | ]; simpl; [ | discriminate].
        intros [= <-]. right. now apply IH. }
  destruct rq as [body | body | body_email | body_token | body_userId];
    unfold handle.
  - rewrite signup_run.
    destruct (validationErrors body); [ | now left].
    destruct (find _ (users s)); [now left | ].
    cbv zeta.
    destruct (validate (signupDraft (oidCounter s) w body)); [ | now left].
    destruct (signup_password body) as [pw | ]; [ | now left].
    destruct (violatesUnique _ (users s)); [now left | ].
    destruct (delivers w); [right | now left].
    repeat split. eexists _, (signupUser bcrypt_hash (oidCounter s) w body pw).
    cbn [fst deliver outbox users]. split; [reflexivity | ].
    split; [apply in_or_app; right; now left | auto].
  - rewrite verifyOTP_run.
    destruct (find _ (users s)) as [u | ]; [ | now left].
    destruct (otpAccepted w u (verify_otp body)); [ | now left].
    destruct (validate u); [ | now left].
    destruct (replaceById (consume u) (users s)); now left.
  - rewrite signin_run.
    destruct (find _ (users s)) as [u | ] eqn:Hf; [ | now left].
    apply find_some in Hf. destruct Hf as [Hin _].
    destruct (issueWrite w u s) as [s' | ] eqn:Hw; [ | now left].
    destruct (Hissue u s' Hin Hw) as (Ho & v & Hv).
    destruct (delivers w); [right | now left].
    repeat split. exists body_email, v. cbn [fst deliver outbox users].
    rewrite Ho. auto.
  - rewrite googleAuth_run.
    destruct (verifyIdToken w body_token _) as [ | [payload | ] ];
      [now left | | now left].
    destruct (find _ (users s)); [now left | ].
    cbv zeta.
    destruct (validate (googleUser (oidCounter s) payload)); [ | now left].
    destruct (violatesUnique _ (users s)); now left.
  - rewrite resendOTP_run.
    destruct (find _ (users s)) as [u | ] eqn:Hf; [ | now left].
    apply find_some in Hf. destruct Hf as [Hin _].
    destruct (issueWrite w u s) as [s' | ] eqn:Hw; [ | now left].
    destruct (Hissue u s' Hin Hw) as (Ho & v & Hv).
    destruct (email u) as [to | ]; [ | now left].
    destruct (delivers w); [right | now left].
    repeat split. exists to, v. cbn [fst deliver outbox users].
    rewrite Ho. auto.
Qed.

Lemma same_id_same_user (us : list User) (u v : User) :
  NoDup (map _id us) -> In u us -> In v us -> _id u = _id v -> u = v.
Proof.
  induction us as [ | x rest IH]; simpl; [contradiction | ].
  intros Hnd Hu Hv E. inversion Hnd as [ | y ys Hnotin Hnd']; subst.
  destruct Hu as [-> | Hu], Hv as [-> | Hv]; auto.
  - exfalso. apply Hnotin. rewrite E. now apply in_map.
  - exfalso. apply Hnotin. rewrite <- E. now apply in_map.
Qed.

Lemma replaceById_keeps (t' : User) (us us' : list User) (u : User) :
  replaceById t' us = Some us' -> In u us ->
  In u us' \/ (_id u = _id t' /\ In t' us').
Proof.
  revert us'. induction us as [ | x rest IH]; simpl; [discriminate | ].
  intros us'. destruct (N.eqb_spec (_id x) (_id t')) as [E | _].
  - intros [= <-] [-> | Hin].
    + right. split; [exact E | now left].
    + left. now right.
  - destruct (replaceById t' rest) as [rest' | ]; simpl; [ | discriminate].
    intros [= <-] [-> | Hin].
    + left. now left.
    + destruct (IH rest' eq_refl Hin) as [H | [H1 H2] ].
      * left. now right.
      * right. split; [exact H1 | now right].
Qed.

(** X14. No request removes a user or rewrites a profile: a user stored
    before a request is still stored after it under the same id, with the
    same email, password hash, [googleId], name and date of birth, and a
    verified user stays verified. *)
Theorem stored_profile_is_kept (w : World) (rq : Request) (s : Sys) (u : User) :
  reachable bcrypt_hash env s ->
  In u (users s) ->
  exists u',
    In u' (users (fst (handle bcrypt_hash env w rq s)))
    /\ _id u' = _id u /\ email u' = email u /\ password u' = password u
    /\ googleId u' = googleId u /\ name u' = name u
    /\ dateOfBirth u' = dateOfBirth u
    /\ (isVerified u = true -> isVerified u' = true).
Proof.
  intros Hr Hin.
  destruct (reachable_idsKept Hr) as [_ Hnd].
  assert (Hupd : forall f t t' us',
            find f (users s) = Some t -> _id t' = _id t ->
            email t' = email t -> password t' = password t ->
            googleId t' = googleId t -> name t' = name t ->
            dateOfBirth t' = dateOfBirth t ->
            (isVerified t = true -> isVerified t' = true) ->
            replaceById t' (users s) = Some us' ->
            exists u', In u' us'
              /\ _id u' = _id u /\ email u' = email u /\ password u' = password u
              /\ googleId u' = googleId u /\ name u' = name u
              /\ dateOfBirth u' = dateOfBirth u
              /\ (isVerified u = true -> isVerified u' = true)).
  { intros f t t' us' Hf H1 H2 H3 H4 H5 H6 H7 Hrep.
    apply find_some in Hf. destruct Hf as [Ht _].
    destruct (replaceById_keeps _ _ u Hrep Hin) as [Hkeep | [Hid Hnew] ].
    - exists u. repeat split; auto.
    - assert (u = t) by (apply (same_id_same_user (users s)); congruence).
      subst u. exists t'. repeat split; auto. }
  destruct (handle_change bcrypt_hash env w rq s) as
    [ rq s s' Hu _ _
    | body pw s s' _ _ _ _ Hu _ _
    | tok payload s s' _ _ Hu _ _
    | body t s s' Hf _ _ Hrep _ _
    | e t s s' Hf _ Hrep _ _
    | id t s s' Hf _ Hrep _ _ ].
  - exists u. rewrite Hu. repeat split; auto.
  - exists u. rewrite Hu. repeat split; auto. apply in_or_app. now left.
  - exists u. rewrite Hu. repeat split; auto. apply in_or_app. now left.
  - apply (Hupd _ t (consume t) _ Hf); auto.
  - apply (Hupd _ t (issue w t) _ Hf); auto.
  - apply (Hupd _ t (issue w t) _ Hf); auto.
Qed.

Lemma replaceById_emails (t t' : User) (us us' : list User) :
  NoDup (map _id us) -> In t us -> _id t' = _id t -> email t' = email t ->
  replaceById t' us = Some us' -> map email us' = map email us.
Proof.
  revert us'. induction us as [ | x rest IH]; simpl; [contradiction | ].
  intros us' Hnd Hin Hid He.
  inversion Hnd as [ | y ys Hnotin Hnd']; subst.
  destruct (N.eqb_spec (_id x) (_id t')) as [E | E].
  - intros [= <-]. simpl. f_equal.
    destruct Hin as [-> | Hin]; [exact He | ].
    exfalso. apply Hnotin. rewrite E, Hid. now apply in_map.
  - destruct (replaceById t' rest) as [rest' | ] eqn:Hr; simpl; [ | discriminate].
    intros [= <-]. simpl. f_equal.
    destruct Hin as [-> | Hin]; [congruence | ].
    now apply IH.
Qed.

Lemma insert_emails (us : list User) (u : User) :
  NoDup (map email us) -> violatesUnique u us = false ->
  NoDup (map email (us ++ [u])).
Proof.
  intros Hnd Hv. rewrite map_app. apply NoDup_app; [exact Hnd | | ].
  - simpl. constructor; [intros [] | constructor].
  - intros a Ha [<- | [] ]. apply in_map_iff in Ha.
    destruct Ha as (v & Hev & Hin).
    unfold violatesUnique in Hv.
    assert (Hx : existsb (fun v0 => N.eqb (_id v0) (_id u)
                                    || opt_eqb String.eqb (email v0) (email u)) us
                 = true).
    { apply existsb_exists. exists v. split; [exact Hin | ].
      apply Bool.orb_true_iff. right. now apply opt_eqb_string_eq. }
    congruence.
Qed.

(** X15. In every reachable state no two stored users have the same id,
    no two have the same email (emails are stored after the setters of the
    schema, so this is uniqueness up to letter case and surrounding
    space), and every id is below the [ObjectId] counter. *)
Theorem ids_and_emails_are_unique (s : Sys) :
  reachable bcrypt_hash env s ->
  NoDup (map _id (users s))
  /\ NoDup (map email (users s))
  /\ Forall (fun u => (_id u < oidCounter s)%N) (users s).
Proof.
  intros Hr. destruct (reachable_idsKept Hr) as [Hlt Hnd].
  split; [exact Hnd | split; [ | exact Hlt] ].
  clear Hlt Hnd. induction Hr as [ | s w rq Hr IH]; [constructor | ].
  destruct (reachable_idsKept Hr) as [_ Hnd].
  destruct (handle_change bcrypt_hash env w rq s) as
    [ rq s s' Hu _ _
    | body pw s s' _ _ _ Hv Hu _ _
    | tok payload s s' _ Hv Hu _ _
    | body t s s' Hf _ _ Hrep _ _
    | e t s s' Hf _ Hrep _ _
    | id t s s' Hf _ Hrep _ _ ].
  - now rewrite Hu.
  - rewrite Hu. now apply insert_emails.
  - rewrite Hu. now apply insert_emails.
  - apply find_some in Hf. destruct Hf as [Hin _].
    now rewrite (@replaceById_emails t (consume t) _ _ Hnd Hin eq_refl eq_refl Hrep).
  - apply find_some in Hf. destruct Hf as [Hin _].
    now rewrite (@replaceById_emails t (issue w t) _ _ Hnd Hin eq_refl eq_refl Hrep).
  - apply find_some in Hf. destruct Hf as [Hin _].
    now rewrite (@replaceById_emails t (issue w t) _ _ Hnd Hin eq_refl eq_refl Hrep).
Qed.

End Further.
